(** * Food-ordering models: cart, order validation and payment processing

    A shallow embedding of [models.py]: the cart ([Cart], [CartItem]), the
    restaurant menu ([RestaurantMenu]), order validation ([OrderPlacement])
    and payment processing ([PaymentMethod], [PaymentProcessing]).

    Python values are embedded as follows.
    - [str] is a sequence of Unicode code points ([PyStr.t]).
    - [dict] keeps its keys in insertion order ([PyDict.t]).
    - [int] is [Z].
    - The numbers used as prices are kept behind the interface [Number].
    - A raised exception is the [Raise] case of [outcome].
    - The payment gateway is the only effect: a program that may call it is
      a tree of type [PaymentMethod.Prog]. *)

From Stdlib Require Import List ZArith NArith Bool Lia String Ascii Permutation.
From Stdlib Require PrimFloat SpecFloat FloatOps.
Import ListNotations.

Set Implicit Arguments.

(** ** Python strings *)

Module PyStr.

(** A [str] is a list of code points. *)
Definition t := list N.

(** The value of an ASCII string literal of the source. *)
Definition str (s : string) : t :=
  List.map N_of_ascii (list_ascii_of_string s).

(** [a == b] *)
Fixpoint eqb (a b : t) : bool :=
  match a, b with
  | [], [] => true
  | x :: a', y :: b' => N.eqb x y && eqb a' b'
  | _, _ => false
  end.

(** [len(s)] *)
Definition len (s : t) : Z := Z.of_nat (List.length s).

(** [x in xs] for a tuple or set of strings. *)
Definition mem (x : t) (xs : list t) : bool := existsb (eqb x) xs.

(** Code points with Numeric_Type=Digit or Numeric_Type=Decimal, as
    inclusive ranges (Unicode 14.0.0, the table of CPython 3.11). *)
Definition digit_ranges : list (N * N) :=
  [ (48, 57); (178, 179); (185, 185); (1632, 1641); (1776, 1785);
    (1984, 1993); (2406, 2415); (2534, 2543); (2662, 2671); (2790, 2799);
    (2918, 2927); (3046, 3055); (3174, 3183); (3302, 3311); (3430, 3439);
    (3558, 3567); (3664, 3673); (3792, 3801); (3872, 3881); (4160, 4169);
    (4240, 4249); (4969, 4977); (6112, 6121); (6160, 6169); (6470, 6479);
    (6608, 6618); (6784, 6793); (6800, 6809); (6992, 7001); (7088, 7097);
    (7232, 7241); (7248, 7257); (8304, 8304); (8308, 8313); (8320, 8329);
    (9312, 9320); (9332, 9340); (9352, 9360); (9450, 9450); (9461, 9469);
    (9471, 9471); (10102, 10110); (10112, 10120); (10122, 10130);
    (42528, 42537); (43216, 43225); (43264, 43273); (43472, 43481);
    (43504, 43513); (43600, 43609); (44016, 44025); (65296, 65305);
    (66720, 66729); (68160, 68163); (68912, 68921); (69216, 69224);
    (69714, 69722); (69734, 69743); (69872, 69881); (69942, 69951);
    (70096, 70105); (70384, 70393); (70736, 70745); (70864, 70873);
    (71248, 71257); (71360, 71369); (71472, 71481); (71904, 71913);
    (72016, 72025); (72784, 72793); (73040, 73049); (73120, 73129);
    (92768, 92777); (92864, 92873); (93008, 93017); (120782, 120831);
    (123200, 123209); (123632, 123641); (125264, 125273);
    (127232, 127242); (130032, 130041) ]%N.

Definition in_range (c : N) (r : N * N) : bool :=
  (N.leb (fst r) c && N.leb c (snd r))%bool.

(** [c.isdigit()] for a single character. *)
Definition isdigit_char (c : N) : bool := existsb (in_range c) digit_ranges.

(** [s.isdigit()]: every character is a digit and there is at least one. *)
Definition isdigit (s : t) : bool :=
  match s with
  | [] => false
  | _ :: _ => forallb isdigit_char s
  end.

(** The ten characters ['0'] .. ['9']. *)
Definition is_decimal_digit (c : N) : bool := (N.leb 48 c && N.leb c 57)%bool.

Definition is_ascii (c : N) : bool := N.ltb c 128.

End PyStr.

Abbreviation pystr := PyStr.t.
Abbreviation str := PyStr.str.

(** ** Python dictionaries with string keys *)

Module PyDict.
Section Dict.
Variable V : Type.

(** Entries in insertion order; a key occurs at most once ([wf]). *)
Definition t := list (pystr * V).

Definition empty : t := [].

(** [d.get(k)] *)
Fixpoint get (k : pystr) (d : t) : option V :=
  match d with
  | [] => None
  | (k', v) :: d' => if PyStr.eqb k k' then Some v else get k d'
  end.

(** [k in d] *)
Definition contains (k : pystr) (d : t) : bool :=
  match get k d with Some _ => true | None => false end.

(** [d[k] = v]: an existing key keeps its place, a new one goes last. *)
Fixpoint set (k : pystr) (v : V) (d : t) : t :=
  match d with
  | [] => [(k, v)]
  | (k', v') :: d' =>
      if PyStr.eqb k k' then (k', v) :: d' else (k', v') :: set k v d'
  end.

(** [d.pop(k, None)], the returned value dropped. *)
Fixpoint pop (k : pystr) (d : t) : t :=
  match d with
  | [] => []
  | (k', v') :: d' =>
      if PyStr.eqb k k' then d' else (k', v') :: pop k d'
  end.

(** [d.keys()] and [d.values()] *)
Definition keys (d : t) : list pystr := List.map fst d.
Definition values (d : t) : list V := List.map snd d.

(** [not d] *)
Definition is_empty (d : t) : bool :=
  match d with [] => true | _ :: _ => false end.

Definition wf (d : t) : Prop := NoDup (keys d).

End Dict.

Arguments empty {V}.
End PyDict.

(** ** Numbers

    [price] is annotated [float]; an [int] is accepted wherever a [float] is.
    The program only adds prices up and multiplies a price by an integer
    quantity, so these operations form the interface. *)

Class Number (A : Type) : Type := {
  (** the [int] zero that [sum] starts from *)
  nzero : A;
  (** [x + y] *)
  nadd : A -> A -> A;
  (** [price * quantity] *)
  nscale : A -> Z -> A
}.

(** Exact arithmetic: addition is a commutative monoid. It holds for [int]
    prices; the rounding of binary64 is outside this interface. *)
Class ExactNumber (A : Type) {num : Number A} : Prop := {
  nadd_0_l : forall x : A, nadd nzero x = x;
  nadd_comm : forall x y : A, nadd x y = nadd y x;
  nadd_assoc : forall x y z : A, nadd x (nadd y z) = nadd (nadd x y) z
}.

Arguments ExactNumber A {num}.

#[export] Instance Z_Number : Number Z :=
  {| nzero := 0%Z; nadd := Z.add; nscale := Z.mul |}.

(** ** Cart *)

Module Cart.
Section WithNumber.
Context {A : Type} `{Number A}.

Record CartItem : Type := mkCartItem {
  name : pystr;
  price : A;
  quantity : Z
}.

Record t : Type := mk { items : PyDict.t CartItem }.

(** [Cart()] *)
Definition new : t := mk PyDict.empty.

(** [add_item(name, price, quantity)] *)
Definition add_item (n : pystr) (p : A) (q : Z) (self : t) : t :=
  match PyDict.get n (items self) with
  | Some it =>
      mk (PyDict.set n
            (mkCartItem (name it) (price it) (quantity it + q))
            (items self))
  | None => mk (PyDict.set n (mkCartItem n p q) (items self))
  end.

(** [remove_item(name)] *)
Definition remove_item (n : pystr) (self : t) : t :=
  mk (PyDict.pop n (items self)).

(** [sum(xs)]: the accumulator starts at zero and takes each element in
    turn. *)
Definition py_sum (xs : list A) : A := fold_left nadd xs nzero.

(** [total()] *)
Definition total (self : t) : A :=
  py_sum (List.map (fun item => nscale (price item) (quantity item))
                   (PyDict.values (items self))).

(** [is_empty()] *)
Definition is_empty (self : t) : bool := PyDict.is_empty (items self).

(** A call of one of the two mutating methods. *)
Inductive op : Type :=
| AddItem (n : pystr) (p : A) (q : Z)
| RemoveItem (n : pystr).

Definition step (self : t) (o : op) : t :=
  match o with
  | AddItem n p q => add_item n p q self
  | RemoveItem n => remove_item n self
  end.

(** The cart after a sequence of calls, earliest first. *)
Definition run (ops : list op) (self : t) : t := fold_left step ops self.

End WithNumber.

Arguments CartItem A : clear implicits.
Arguments t A : clear implicits.
Arguments op A : clear implicits.
End Cart.

(** ** Restaurant menu *)

Module RestaurantMenu.
Section WithNumber.
Context {A : Type}.

Record t : Type := mk { available_items : PyDict.t A }.

(** [RestaurantMenu()] *)
Definition new : t := mk PyDict.empty.

(** [add_menu_item(name, price)] *)
Definition add_menu_item (n : pystr) (p : A) (self : t) : t :=
  mk (PyDict.set n p (available_items self)).

(** [has_item(name)] *)
Definition has_item (n : pystr) (self : t) : bool :=
  PyDict.contains n (available_items self).

End WithNumber.

Arguments t A : clear implicits.
End RestaurantMenu.

(** ** Order placement *)

Module OrderPlacement.

(** The returned dictionary [{"success": ..., "message": ...}]. *)
Record Verdict : Type := mkVerdict { success : bool; message : pystr }.

Section WithNumber.
Context {A : Type}.

Record t : Type := mk {
  cart : Cart.t A;
  menu : RestaurantMenu.t A
}.

(** The loop of [validate_order] over [cart.items.values()]: it returns
    at the first item that the menu does not list. *)
Fixpoint check_items (m : RestaurantMenu.t A)
         (vals : list (Cart.CartItem A)) : Verdict :=
  match vals with
  | [] => mkVerdict true (str "Order is valid")
  | item :: rest =>
      if negb (RestaurantMenu.has_item (Cart.name item) m)
      then mkVerdict false
             (Cart.name item ++ str " is not available")
      else check_items m rest
  end.

(** [validate_order()] *)
Definition validate_order (self : t) : Verdict :=
  if Cart.is_empty (cart self)
  then mkVerdict false (str "Cart is empty")
  else check_items (menu self)
         (PyDict.values (Cart.items (cart self))).

End WithNumber.

Arguments t A : clear implicits.
End OrderPlacement.

(** ** Exceptions *)

Inductive exn : Type :=
| ValueError (msg : pystr)
| OtherError (msg : pystr).

(** What a call produces: a returned value or a raised exception. *)
Inductive outcome (T : Type) : Type :=
| Return (v : T)
| Raise (e : exn).

Arguments Return {T} v.
Arguments Raise {T} e.

(** ** The payment gateway *)

Module PaymentMethod.
Section WithNumber.
Context {A : Type}.

(** The second argument of a gateway call, a [dict] of strings. *)
Definition Payload := PyDict.t pystr.

(** One call [payment_method.process_payment(amount, payload)]. *)
Definition Call : Type := (A * Payload)%type.

(** A program that may call the gateway: it returns, or it calls
    [process_payment] and goes on with the answer. *)
Inductive Prog (T : Type) : Type :=
| Ret (v : T)
| ProcessPayment (amount : A) (payload : Payload) (k : bool -> Prog T).

(** A gateway object: its answer may depend on the calls it has already
    received, as the answer of a mock or of a remote service does. *)
Definition t : Type := list Call -> A -> Payload -> bool.

(** [PaymentMethod.process_payment] of the source: always [True]. *)
Definition process_payment : t := fun _ _ _ => true.

(** Runs a program against a gateway; [log] holds the calls made so
    far, earliest first. *)
Fixpoint exec {T : Type} (gw : t) (p : Prog T) (log : list Call)
  : T * list Call :=
  match p with
  | Ret v => (v, log)
  | ProcessPayment amount payload k =>
      exec gw (k (gw log amount payload)) (log ++ [(amount, payload)])
  end.

End WithNumber.

Arguments Prog A T : clear implicits.
Arguments t A : clear implicits.
Arguments Call A : clear implicits.
Arguments Ret {A T} v.
Arguments ProcessPayment {A T} amount payload k.
End PaymentMethod.

(** ** Payment processing *)

Module PaymentProcessing.
Import PaymentMethod.

Definition SUPPORTED_METHODS : list pystr := [str "credit_card"].

(** [validate_payment_method(method)] *)
Definition validate_payment_method (method : pystr) : outcome bool :=
  if negb (PyStr.mem method SUPPORTED_METHODS)
  then Raise (ValueError (str "Invalid payment method"))
  else Return true.

(** [validate_credit_card(card_number, cvv)] *)
Definition validate_credit_card (card_number cvv : pystr) : bool :=
  (Z.eqb (PyStr.len card_number) 15 || Z.eqb (PyStr.len card_number) 16)
  && Z.eqb (PyStr.len cvv) 3
  && PyStr.isdigit card_number
  && PyStr.isdigit cvv.

Section WithNumber.
Context {A : Type}.

(** [process_payment(amount, method, card_number, cvv)]. The [try]
    catches [ValueError] only; any other exception passes through. *)
Definition process_payment (amount : A) (method card_number cvv : pystr)
  : Prog A (outcome pystr) :=
  match validate_payment_method method with
  | Raise (ValueError exc) => Ret (Return (str "Error: " ++ exc))
  | Raise e => Ret (Raise e)
  | Return _ =>
      if negb (validate_credit_card card_number cvv)
      then Ret (Return (str "Payment failed, please try again"))
      else
        ProcessPayment amount
          [ (str "card_number", card_number);
            (str "cvv", cvv);
            (str "method", method) ]
          (fun success =>
             if success
             then Ret (Return (str "Payment successful, Order confirmed"))
             else Ret (Return (str "Payment failed, please try again")))
  end.

End WithNumber.
End PaymentProcessing.

(** ** Order workflow *)

Module OrderWorkflow.
Import PaymentMethod.

Section WithNumber.
Context {A : Type} `{Number A}.

(** The signature of [PaymentProcessing.process_payment]. *)
Definition Processor : Type :=
  A -> pystr -> pystr -> pystr -> Prog A (outcome pystr).

(** Modelled from the spec: [placeOrder], the composition of order
    validation and payment processing, which the source does not
    define. It runs the validator; a rejected order ends with the
    verdict's reason as the outcome; an accepted one passes
    [cart.total()] and the payment credentials to the processor, whose
    outcome is the result. *)
Definition placeOrder (processor : Processor)
           (cart : Cart.t A) (menu : RestaurantMenu.t A)
           (paymentMethod cardNumber cvv : pystr)
  : Prog A (outcome pystr) :=
  let verdict :=
    OrderPlacement.validate_order (OrderPlacement.mk cart menu) in
  if negb (OrderPlacement.success verdict)
  then Ret (Return (OrderPlacement.message verdict))
  else processor (Cart.total cart) paymentMethod cardNumber cvv.

End WithNumber.
End OrderWorkflow.

(** ** More string operations *)

Module PyStrOps.

(** [ch in s] for a string [ch] of one character. *)
Definition has_char (ch : N) (s : pystr) : bool := existsb (N.eqb ch) s.

(** [s.split(sep)] for a separator of one character: the segments between
    the occurrences of [sep], of which there is always at least one. *)
Fixpoint split (sep : N) (s : pystr) : list pystr :=
  match s with
  | [] => [[]]
  | c :: s' =>
      if N.eqb c sep then [] :: split sep s'
      else match split sep s' with
           | seg :: rest => (c :: seg) :: rest
           | [] => [[c]]
           end
  end.

(** [segments[-1]], taken of the result of [split], which is never
    empty. *)
Definition last_segment (segments : list pystr) : pystr :=
  List.last segments [].

(** The characters ['@'] and ['.']. *)
Definition at_sign : N := 64.
Definition full_stop : N := 46.

(** The truth value of an [Optional[str]]: [None] and the empty string
    count as false. *)
Definition truthy (o : option pystr) : bool :=
  match o with
  | Some (_ :: _) => true
  | _ => false
  end.

End PyStrOps.

(** ** User registry *)

Module UserRegistry.

Record User : Type := mkUser { email : pystr; password : pystr }.

(** The returned dictionary [{"success": ..., "message": ...}]. *)
Record Result : Type := mkResult { success : bool; message : pystr }.

Record t : Type := mk { _users : PyDict.t User }.

(** [UserRegistry()] *)
Definition new : t := mk PyDict.empty.

(** [_is_valid_email(email)] *)
Definition _is_valid_email (e : pystr) : bool :=
  PyStrOps.has_char PyStrOps.at_sign e
  && PyStrOps.has_char PyStrOps.full_stop
       (PyStrOps.last_segment (PyStrOps.split PyStrOps.at_sign e)).

(** [_is_strong_password(password)] *)
Definition _is_strong_password (pw : pystr) : bool :=
  Z.leb 6 (PyStr.len pw).

(** [register(email, password, confirm_password)]: the returned dictionary
    and the registry after the call. *)
Definition register (e pw confirm_password : pystr) (self : t)
  : Result * t :=
  if negb (_is_valid_email e)
  then (mkResult false (str "Invalid email format"), self)
  else if negb (PyStr.eqb pw confirm_password)
  then (mkResult false (str "Passwords do not match"), self)
  else if negb (_is_strong_password pw)
  then (mkResult false (str "Password too weak"), self)
  else if PyDict.contains e (_users self)
  then (mkResult false (str "Email already registered"), self)
  else (mkResult true
          (str "Registration successful, confirmation email sent"),
        mk (PyDict.set e (mkUser e pw) (_users self))).

(** [is_registered(email)] *)
Definition is_registered (e : pystr) (self : t) : bool :=
  PyDict.contains e (_users self).

(** One [register] call, by its three arguments. *)
Definition call : Type := (pystr * pystr * pystr)%type.

(** The registry after a sequence of [register] calls, earliest first. *)
Definition run (calls : list call) (self : t) : t :=
  fold_left (fun r '(e, pw, c) => snd (register e pw c r)) calls self.

End UserRegistry.

(** ** Restaurants *)

(** [rating] is a [float]; the program only compares two ratings. *)
Class Rating (R : Type) : Type := {
  (** [x < y] *)
  rlt : R -> R -> bool
}.

#[export] Instance Z_Rating : Rating Z := {| rlt := Z.ltb |}.

Module RestaurantDatabase.
Section WithRating.
Context {R : Type}.

Record Restaurant : Type := mkRestaurant {
  name : pystr;
  cuisine : pystr;
  location : pystr;
  rating : R
}.

Record t : Type := mk { _restaurants : list Restaurant }.

(** [RestaurantDatabase()] *)
Definition new : t := mk [].

(** [add_restaurant(restaurant)] *)
Definition add_restaurant (restaurant : Restaurant) (self : t) : t :=
  mk (_restaurants self ++ [restaurant]).

(** [all()]: a copy of the list. *)
Definition all (self : t) : list Restaurant := _restaurants self.

End WithRating.

Arguments Restaurant R : clear implicits.
Arguments t R : clear implicits.
End RestaurantDatabase.

Module RestaurantBrowsing.
Import RestaurantDatabase.
Section WithRating.
Context {R : Type} `{Rating R}.

Record t : Type := mk { db : RestaurantDatabase.t R }.

(** The body of the loop of [search] for the restaurant [r]: each of the
    three tests leaves [results] as it is, otherwise [r] is appended. *)
Definition search_step (cuisine_ location_ : option pystr)
           (min_rating : option R)
           (results : list (Restaurant R)) (r : Restaurant R)
  : list (Restaurant R) :=
  if PyStrOps.truthy cuisine_
     && negb (match cuisine_ with
              | Some c => PyStr.eqb (cuisine r) c
              | None => false
              end)
  then results
  else if PyStrOps.truthy location_
          && negb (match location_ with
                   | Some l => PyStr.eqb (location r) l
                   | None => false
                   end)
  then results
  else if match min_rating with
          | Some m => rlt (rating r) m
          | None => false
          end
  then results
  else results ++ [r].

(** [search(cuisine, location, min_rating)] *)
Definition search (cuisine_ location_ : option pystr)
           (min_rating : option R) (self : t) : list (Restaurant R) :=
  fold_left (search_step cuisine_ location_ min_rating)
            (RestaurantDatabase.all (db self)) [].

End WithRating.

Arguments t R : clear implicits.
End RestaurantBrowsing.

(** ** Order history *)

Module OrderHistory.
Section WithTypes.
(** [I] is the type of the [items] argument, [A] that of [total]. *)
Context {I A : Type}.

(** The dictionary that [add_order] builds. *)
Record Order : Type := mkOrder {
  order_id : pystr;
  items : I;
  total : A;
  status : pystr;
  date : pystr
}.

Record t : Type := mk { orders : list Order }.

(** [OrderHistory()] *)
Definition new : t := mk [].

(** [add_order(order_id, items, total, status, date)] *)
Definition add_order (oid : pystr) (its : I) (tot : A) (st dt : pystr)
           (self : t) : t :=
  mk (orders self ++ [mkOrder oid its tot st dt]).

(** [view_order_history()]: a copy of the list. *)
Definition view_order_history (self : t) : list Order := orders self.

(** The body of the loop of [filter_orders]. *)
Definition filter_step (st dt : option pystr)
           (filtered_orders : list Order) (order : Order) : list Order :=
  if match st with
     | Some s => negb (PyStr.eqb (status order) s)
     | None => false
     end
  then filtered_orders
  else if match dt with
          | Some d => negb (PyStr.eqb (date order) d)
          | None => false
          end
  then filtered_orders
  else filtered_orders ++ [order].

(** [filter_orders(status, date)] *)
Definition filter_orders (st dt : option pystr) (self : t) : list Order :=
  fold_left (filter_step st dt) (orders self) [].

End WithTypes.

Arguments Order I A : clear implicits.
Arguments t I A : clear implicits.
End OrderHistory.

(** ** Vocabulary of the properties below *)

Section CartVocabulary.
Context {A : Type}.

(** The [(price, quantity)] arguments of the [add_item] calls for name
    [n] in [ops], in call order. *)
Fixpoint adds_of (n : pystr) (ops : list (Cart.op A)) : list (A * Z) :=
  match ops with
  | [] => []
  | Cart.AddItem m p q :: ops' =>
      if PyStr.eqb m n then (p, q) :: adds_of n ops' else adds_of n ops'
  | Cart.RemoveItem _ :: ops' => adds_of n ops'
  end.

(** The sum of a list of integers. *)
Definition Zsum (qs : list Z) : Z := fold_right Z.add 0%Z qs.

(** An [add_item] call asks for at least one unit. *)
Definition adds_at_least_one (o : Cart.op A) : Prop :=
  match o with
  | Cart.AddItem _ _ q => (1 <= q)%Z
  | Cart.RemoveItem _ => True
  end.

(** Every entry of the cart holds at least one unit. *)
Definition all_at_least_one (c : Cart.t A) : Prop :=
  forall item, In item (PyDict.values (Cart.items c)) ->
               (1 <= Cart.quantity item)%Z.

Context `{Number A}.

(** [price * quantity] of one entry. *)
Definition line_total (item : Cart.CartItem A) : A :=
  nscale (Cart.price item) (Cart.quantity item).

(** The sum of a finite family of amounts, [sigma [x1; ..; xn]] being
    [x1 + (x2 + (.. + (xn + 0)))]. *)
Definition sigma (xs : list A) : A := fold_right nadd nzero xs.

End CartVocabulary.

(** ** Vocabulary of order validation and of the card format *)

(** The menu lists the name of this cart item. *)
Definition listed {A : Type} (menu : RestaurantMenu.t A)
           (item : Cart.CartItem A) : Prop :=
  RestaurantMenu.has_item (Cart.name item) menu = true.

(** The card format in the words of the specification: the card number is
    made of decimal digits only and has 15 or 16 of them, the cvv is made
    of decimal digits only and has 3 of them. *)
Definition card_format_ok (cardNumber cvv : pystr) : Prop :=
  Forall (fun ch => PyStr.is_decimal_digit ch = true) cardNumber
  /\ (List.length cardNumber = 15%nat \/ List.length cardNumber = 16%nat)
  /\ Forall (fun ch => PyStr.is_decimal_digit ch = true) cvv
  /\ List.length cvv = 3%nat.

(** ** Sample data *)

Section Samples.
Local Open Scope Z_scope.
Local Open Scope string_scope.

(** Two pizzas, one burger, three more pizzas at another price. *)
Definition example_ops : list (Cart.op Z) :=
  [ Cart.AddItem (str "Pizza") 10 2;
    Cart.AddItem (str "Burger") 8 1;
    Cart.AddItem (str "Pizza") 12 3 ].

Definition example_cart : Cart.t Z := Cart.run example_ops Cart.new.

(** A menu with pizza and burger, and a cart with a salad as well. *)
Definition example_menu : RestaurantMenu.t Z :=
  RestaurantMenu.add_menu_item (str "Burger") 8
    (RestaurantMenu.add_menu_item (str "Pizza") 10 RestaurantMenu.new).

Definition salad_cart : Cart.t Z :=
  Cart.add_item (str "Salad") 5 1 example_cart.

(** Sixteen times the character SUPERSCRIPT TWO (U+00B2). *)
Definition superscript_twos : pystr := List.repeat 178%N 16.

(** A gateway that declines every payment. *)
Definition declining : PaymentMethod.t Z := fun _ _ _ => false.

End Samples.

(** ** Vocabulary of the registry, of search and of the order filters *)

(** Every stored user is filed under its own email, which is valid, with a
    password that is strong, and no email is filed twice. *)
Definition registry_ok (r : UserRegistry.t) : Prop :=
  PyDict.wf (UserRegistry._users r)
  /\ forall k u, In (k, u) (UserRegistry._users r) ->
       UserRegistry.email u = k
       /\ UserRegistry._is_valid_email k = true
       /\ UserRegistry._is_strong_password (UserRegistry.password u) = true.

(** Every entry of the cart is filed under the name it carries, and no
    name is filed twice. *)
Definition cart_ok {A : Type} (c : Cart.t A) : Prop :=
  PyDict.wf (Cart.items c)
  /\ forall k item, In (k, item) (Cart.items c) -> Cart.name item = k.

(** The restaurant passes the three filters of a search: a filter that is
    [None], and a string filter that is empty, lets everything through. *)
Definition restaurant_matches {R : Type} `{Rating R}
           (cuisine_ location_ : option pystr) (min_rating : option R)
           (r : RestaurantDatabase.Restaurant R) : Prop :=
  (forall c, cuisine_ = Some c -> c <> [] ->
             RestaurantDatabase.cuisine r = c)
  /\ (forall l, location_ = Some l -> l <> [] ->
                RestaurantDatabase.location r = l)
  /\ (forall m, min_rating = Some m ->
                rlt (RestaurantDatabase.rating r) m = false).

(** The order passes the two filters of [filter_orders]: only a filter
    that is [None] lets everything through. *)
Definition order_matches {I A : Type} (st dt : option pystr)
           (o : OrderHistory.Order I A) : Prop :=
  (forall s, st = Some s -> OrderHistory.status o = s)
  /\ (forall d, dt = Some d -> OrderHistory.date o = d).

(** The decisions behind [restaurant_matches] and [order_matches]. *)
Definition passes_text (filter_ : option pystr) (field : pystr) : bool :=
  match filter_ with
  | Some (ch :: rest) => PyStr.eqb field (ch :: rest)
  | _ => true
  end.

Definition search_keeps {R : Type} `{Rating R}
           (cuisine_ location_ : option pystr) (min_rating : option R)
           (r : RestaurantDatabase.Restaurant R) : bool :=
  passes_text cuisine_ (RestaurantDatabase.cuisine r)
  && passes_text location_ (RestaurantDatabase.location r)
  && match min_rating with
     | Some m => negb (rlt (RestaurantDatabase.rating r) m)
     | None => true
     end.

Definition passes_exact (filter_ : option pystr) (field : pystr) : bool :=
  match filter_ with
  | Some s => PyStr.eqb field s
  | None => true
  end.

Definition order_keeps {I A : Type} (st dt : option pystr)
           (o : OrderHistory.Order I A) : bool :=
  passes_exact st (OrderHistory.status o)
  && passes_exact dt (OrderHistory.date o).

(** ** More sample data *)

Section MoreSamples.
Local Open Scope Z_scope.

Definition alice : UserRegistry.call :=
  (str "alice@example.com", str "secret1", str "secret1").

Definition alice_again : UserRegistry.call :=
  (str "alice@example.com", str "another2", str "another2").

Definition example_registry : UserRegistry.t :=
  UserRegistry.run [alice] UserRegistry.new.

(** Ratings in tenths of a star. *)
Definition pizza_place : RestaurantDatabase.Restaurant Z :=
  RestaurantDatabase.mkRestaurant
    (str "Pizza Place") (str "Italian") (str "Downtown") 45.

Definition sushi_bar : RestaurantDatabase.Restaurant Z :=
  RestaurantDatabase.mkRestaurant
    (str "Sushi Bar") (str "Japanese") (str "Downtown") 40.

Definition curry_house : RestaurantDatabase.Restaurant Z :=
  RestaurantDatabase.mkRestaurant
    (str "Curry House") (str "Indian") (str "Uptown") 38.

Definition example_db : RestaurantDatabase.t Z :=
  RestaurantDatabase.add_restaurant sushi_bar
    (RestaurantDatabase.add_restaurant pizza_place RestaurantDatabase.new).

Definition example_history : OrderHistory.t pystr Z :=
  OrderHistory.add_order (str "Order002") (str "Sushi") 20
    (str "Pending") (str "2023-09-16")
    (OrderHistory.add_order (str "Order001") (str "Pizza") 25
       (str "Delivered") (str "2023-09-15") OrderHistory.new).

End MoreSamples.

(** ** A gateway that may raise *)

Module RaisingGateway.
Import PaymentMethod.
Section WithNumber.
Context {A : Type}.

(** A gateway object whose call returns a boolean or raises. *)
Definition t : Type := list (Call A) -> A -> Payload -> outcome bool.

(** Runs a program against such a gateway. No gateway call of the source
    sits inside a [try], so an exception raised by the call ends the
    program and is its outcome. *)
Fixpoint exec {T : Type} (gw : t) (p : Prog A (outcome T))
         (log : list (Call A)) : outcome T * list (Call A) :=
  match p with
  | Ret v => (v, log)
  | ProcessPayment amount payload k =>
      match gw log amount payload with
      | Return success =>
          exec gw (k success) (log ++ [(amount, payload)])
      | Raise e => (Raise e, log ++ [(amount, payload)])
      end
  end.

End WithNumber.

Arguments t A : clear implicits.
End RaisingGateway.

(** ** Prices in binary64 *)

Module Binary64.
Import PrimFloat.

(** [float(z)], rounded to the nearest binary64 number, ties to even.
    Beyond the range of binary64 Python raises [OverflowError], where this
    function yields an infinity; nothing below uses it there. *)
Definition of_int (z : Z) : float :=
  FloatOps.SF2Prim (SpecFloat.binary_normalize 53 1024 z 0 false).

(** The arithmetic of [float] prices: an [int] operand is converted
    first. *)
#[export] Instance Float_Number : Number float :=
  {| nzero := of_int 0;
     nadd := add;
     nscale := fun p q => mul p (of_int q) |}.




End Binary64.

(** ** Sums taken in order *)

Section OrderedSum.
Context {A : Type} `{Number A}.


End OrderedSum.

(** * Properties *)

#[export] Instance Z_ExactNumber : ExactNumber Z.
Proof. split; simpl; intros; lia. Qed.

(** ** Strings *)

Lemma pystr_eqb_spec (a b : pystr) : reflect (a = b) (PyStr.eqb a b).
Proof.
  revert b; induction a as [|x a IH]; intros [|y b]; simpl;
    try (constructor; congruence).
  destruct (N.eqb_spec x y) as [->|Hxy]; simpl.
  - destruct (IH b) as [->|Hab]; constructor; congruence.
  - constructor; congruence.
Qed.

Lemma pystr_eqb_refl (a : pystr) : PyStr.eqb a a = true.
Proof. destruct (pystr_eqb_spec a a); congruence. Qed.

Lemma pystr_eqb_neq (a b : pystr) : a <> b -> PyStr.eqb a b = false.
Proof. destruct (pystr_eqb_spec a b); congruence. Qed.

Lemma pystr_eqb_eq (a b : pystr) : PyStr.eqb a b = true -> a = b.
Proof. destruct (pystr_eqb_spec a b); congruence. Qed.

(** ** Dictionaries *)

Section DictFacts.
Variable V : Type.
Implicit Types (d : PyDict.t V) (k : pystr) (v : V).

Lemma get_set_same k v d : PyDict.get k (PyDict.set k v d) = Some v.
Proof.
  induction d as [|[k' v'] d IH]; simpl.
  - now rewrite pystr_eqb_refl.
  - destruct (PyStr.eqb k k') eqn:E; simpl; rewrite E; auto.
Qed.

Lemma get_set_other k k' v d :
  k' <> k -> PyDict.get k' (PyDict.set k v d) = PyDict.get k' d.
Proof.
  intros Hne; induction d as [|[k0 v0] d IH]; simpl.
  - now rewrite pystr_eqb_neq.
  - destruct (pystr_eqb_spec k k0) as [->|E]; simpl.
    + now rewrite pystr_eqb_neq.
    + now rewrite IH.
Qed.

Lemma get_pop_other k k' d :
  k' <> k -> PyDict.get k' (PyDict.pop k d) = PyDict.get k' d.
Proof.
  intros Hne; induction d as [|[k0 v0] d IH]; simpl; auto.
  destruct (pystr_eqb_spec k k0) as [->|E]; simpl.
  - now rewrite pystr_eqb_neq.
  - now rewrite IH.
Qed.

Lemma pop_absent k d : PyDict.get k d = None -> PyDict.pop k d = d.
Proof.
  induction d as [|[k0 v0] d IH]; simpl; auto.
  destruct (PyStr.eqb k k0); [discriminate|].
  intros Hn; now rewrite IH.
Qed.

Lemma contains_false k d :
  PyDict.contains k d = false <-> PyDict.get k d = None.
Proof.
  unfold PyDict.contains; destruct (PyDict.get k d); split; congruence.
Qed.

Lemma get_in_values k v d : PyDict.get k d = Some v -> In v (PyDict.values d).
Proof.
  induction d as [|[k0 v0] d IH]; simpl; [discriminate|].
  destruct (PyStr.eqb k k0).
  - intros [= ->]; now left.
  - intros Hg; right; now apply IH.
Qed.

Lemma in_values_set k v d x :
  In x (PyDict.values (PyDict.set k v d)) -> x = v \/ In x (PyDict.values d).
Proof.
  induction d as [|[k0 v0] d IH]; simpl.
  - intros [<-|[]]; now left.
  - destruct (PyStr.eqb k k0); simpl.
    + intros [<-|Hin]; auto.
    + intros [<-|Hin]; auto. destruct (IH Hin); auto.
Qed.

Lemma in_values_pop k d x :
  In x (PyDict.values (PyDict.pop k d)) -> In x (PyDict.values d).
Proof.
  induction d as [|[k0 v0] d IH]; simpl; auto.
  destruct (PyStr.eqb k k0); simpl; intuition.
Qed.

Lemma get_none_not_key k d : PyDict.get k d = None <-> ~ In k (PyDict.keys d).
Proof.
  induction d as [|[k0 v0] d IH]; simpl; [tauto|].
  destruct (pystr_eqb_spec k k0) as [->|E].
  - split; [discriminate|tauto].
  - rewrite IH; split; [intros Hn [He|Hin]; congruence|tauto].
Qed.

Lemma keys_set_present k v d :
  PyDict.get k d <> None -> PyDict.keys (PyDict.set k v d) = PyDict.keys d.
Proof.
  induction d as [|[k0 v0] d IH]; simpl; [congruence|].
  destruct (PyStr.eqb k k0); simpl; auto.
  intros Hg; now rewrite IH.
Qed.

Lemma keys_set_absent k v d :
  PyDict.get k d = None ->
  PyDict.keys (PyDict.set k v d) = PyDict.keys d ++ [k].
Proof.
  induction d as [|[k0 v0] d IH]; simpl; auto.
  destruct (PyStr.eqb k k0); simpl; [discriminate|].
  intros Hg; now rewrite IH.
Qed.

(** Writing to a dictionary keeps its keys distinct. *)
Lemma wf_set k v d : PyDict.wf d -> PyDict.wf (PyDict.set k v d).
Proof.
  unfold PyDict.wf; intros Hwf.
  destruct (PyDict.get k d) eqn:Hg.
  - rewrite keys_set_present; congruence.
  - rewrite keys_set_absent by assumption.
    apply NoDup_app; [assumption|repeat constructor; simpl; tauto|].
    intros x Hx [<-|[]]. now apply get_none_not_key in Hg.
Qed.

Lemma in_keys_pop k d x :
  In x (PyDict.keys (PyDict.pop k d)) -> In x (PyDict.keys d).
Proof.
  induction d as [|[k0 v0] d IH]; simpl; auto.
  destruct (PyStr.eqb k k0); simpl; intuition.
Qed.

Lemma wf_pop k d : PyDict.wf d -> PyDict.wf (PyDict.pop k d).
Proof.
  unfold PyDict.wf; induction d as [|[k0 v0] d IH]; simpl; auto.
  intros Hwf; inversion Hwf as [|? ? Hnin Hnd]; subst.
  destruct (PyStr.eqb k k0); simpl; auto.
  constructor; auto. intros Hin; apply Hnin. eapply in_keys_pop; eauto.
Qed.

(** After [pop], the key is gone. *)
Lemma get_pop_same k d : PyDict.wf d -> PyDict.get k (PyDict.pop k d) = None.
Proof.
  unfold PyDict.wf; induction d as [|[k0 v0] d IH]; simpl; auto.
  intros Hwf; inversion Hwf as [|? ? Hnin Hnd]; subst.
  destruct (pystr_eqb_spec k k0) as [->|E]; simpl.
  - now apply get_none_not_key.
  - rewrite pystr_eqb_neq by assumption. auto.
Qed.

End DictFacts.

(** ** Cart *)

Section CartFacts.
Context {A : Type}.
Implicit Types (c : Cart.t A) (n m : pystr) (p : A) (q : Z)
         (ops : list (Cart.op A)).

Local Open Scope Z_scope.

Lemma get_add_item_other c n m p q :
  m <> n ->
  PyDict.get m (Cart.items (Cart.add_item n p q c))
  = PyDict.get m (Cart.items c).
Proof.
  intros Hne; unfold Cart.add_item.
  destruct (PyDict.get n (Cart.items c)); simpl;
    now apply get_set_other.
Qed.

Lemma get_remove_item_other c n m :
  m <> n ->
  PyDict.get m (Cart.items (Cart.remove_item n c))
  = PyDict.get m (Cart.items c).
Proof. intros Hne; simpl; now apply get_pop_other. Qed.

Lemma remove_item_absent c n :
  PyDict.contains n (Cart.items c) = false -> Cart.remove_item n c = c.
Proof.
  intros Hc; apply contains_false in Hc.
  destruct c as [d]; unfold Cart.remove_item; simpl in *.
  now rewrite pop_absent.
Qed.

(** C10. [add_item(n, p, q)] and [remove_item(n)] leave the entry of
    every other name [m] as it was, and [remove_item(n)] leaves the whole
    cart as it was when [n] is not in it. *)
Theorem cart_frame c n m p q :
  (m <> n ->
     PyDict.get m (Cart.items (Cart.add_item n p q c))
     = PyDict.get m (Cart.items c)
     /\ PyDict.get m (Cart.items (Cart.remove_item n c))
        = PyDict.get m (Cart.items c))
  /\ (PyDict.contains n (Cart.items c) = false ->
      Cart.remove_item n c = c).
Proof.
  split.
  - intros Hne; split;
      [now apply get_add_item_other | now apply get_remove_item_other].
  - apply remove_item_absent.
Qed.

(** The methods keep the keys of the cart distinct. *)
Lemma step_wf c (o : Cart.op A) :
  PyDict.wf (Cart.items c) -> PyDict.wf (Cart.items (Cart.step c o)).
Proof.
  intros Hwf; destruct o as [n p q|n]; simpl.
  - unfold Cart.add_item; destruct (PyDict.get n (Cart.items c)); simpl;
      now apply wf_set.
  - now apply wf_pop.
Qed.

Lemma run_wf ops c :
  PyDict.wf (Cart.items c) -> PyDict.wf (Cart.items (Cart.run ops c)).
Proof.
  revert c; induction ops as [|o ops IH]; intros c Hwf; simpl; auto.
  apply IH, step_wf, Hwf.
Qed.

(** *** Quantities *)

Lemma step_at_least_one c (o : Cart.op A) :
  adds_at_least_one o -> all_at_least_one c ->
  all_at_least_one (Cart.step c o).
Proof.
  intros Ho Hc item; destruct o as [n p q|n]; simpl in *.
  - unfold Cart.add_item.
    destruct (PyDict.get n (Cart.items c)) as [old|] eqn:Hg; simpl;
      intros Hin; apply in_values_set in Hin as [->|Hin]; simpl; auto.
    apply get_in_values, Hc in Hg. lia.
  - intros Hin; apply in_values_pop in Hin; auto.
Qed.

(** C8, as the code has it. In every cart state reached from [Cart()] by
    [remove_item] calls and [add_item] calls whose quantity argument is at
    least 1, every entry has a quantity of at least 1. *)
Theorem cart_quantity_at_least_one ops :
  Forall adds_at_least_one ops ->
  forall item,
    In item (PyDict.values (Cart.items (Cart.run ops Cart.new))) ->
    1 <= Cart.quantity item.
Proof.
  intros Hops.
  assert (Hgen : forall c, all_at_least_one c ->
                           all_at_least_one (Cart.run ops c)).
  { induction Hops as [|o ops Ho Hops IH]; intros c Hc; simpl; auto.
    apply IH, step_at_least_one; assumption. }
  apply Hgen. intros item [].
Qed.

(** *** Repeated additions *)

Lemma run_cons (o : Cart.op A) ops c :
  Cart.run (o :: ops) c = Cart.run ops (Cart.step c o).
Proof. reflexivity. Qed.

Lemma run_present ops : forall c n (item : Cart.CartItem A),
  PyDict.get n (Cart.items c) = Some item ->
  ~ In (Cart.RemoveItem n) ops ->
  PyDict.get n (Cart.items (Cart.run ops c))
  = Some (Cart.mkCartItem (Cart.name item) (Cart.price item)
            (Cart.quantity item + Zsum (List.map snd (adds_of n ops)))).
Proof.
  induction ops as [|o ops IH]; intros c n item Hg Hrm.
  - simpl; rewrite Hg; destruct item; simpl; f_equal; f_equal; lia.
  - assert (Hrm' : ~ In (Cart.RemoveItem n) ops) by (simpl in Hrm; tauto).
    rewrite run_cons.
    destruct o as [m p q|m]; simpl adds_of.
    + destruct (pystr_eqb_spec m n) as [->|Hne].
      * rewrite (IH (Cart.step c (Cart.AddItem n p q)) n
                   (Cart.mkCartItem (Cart.name item) (Cart.price item)
                      (Cart.quantity item + q))); auto.
        -- simpl; f_equal; f_equal; lia.
        -- simpl; unfold Cart.add_item; rewrite Hg; simpl.
           apply get_set_same.
      * apply IH; auto. simpl.
        rewrite get_add_item_other; auto.
    + assert (Hne : n <> m) by (intros ->; apply Hrm; now left).
      apply IH; auto. simpl. rewrite get_pop_other; auto.
Qed.

Lemma run_absent ops : forall c n p1,
  PyDict.get n (Cart.items c) = None ->
  ~ In (Cart.RemoveItem n) ops ->
  hd_error (List.map fst (adds_of n ops)) = Some p1 ->
  PyDict.get n (Cart.items (Cart.run ops c))
  = Some (Cart.mkCartItem n p1 (Zsum (List.map snd (adds_of n ops)))).
Proof.
  induction ops as [|o ops IH]; intros c n p1 Hg Hrm Hhd.
  - discriminate.
  - assert (Hrm' : ~ In (Cart.RemoveItem n) ops) by (simpl in Hrm; tauto).
    rewrite run_cons.
    destruct o as [m p q|m]; simpl adds_of in *.
    + destruct (pystr_eqb_spec m n) as [->|Hne].
      * simpl in Hhd; injection Hhd as ->.
        rewrite (@run_present ops (Cart.step c (Cart.AddItem n p1 q)) n
                   (Cart.mkCartItem n p1 q)); auto.
        simpl; unfold Cart.add_item; rewrite Hg; simpl. apply get_set_same.
      * apply IH; auto. simpl. rewrite get_add_item_other; auto.
    + assert (Hne : n <> m) by (intros ->; apply Hrm; now left).
      apply IH; auto. simpl. rewrite get_pop_other; auto.
Qed.

(** C7. Starting from a cart without the name [n], after any sequence of
    calls that never removes [n] and adds it at least once, the entry of
    [n] has the price of the first [add_item] call for [n] and, as its
    quantity, the sum of the quantities of all [add_item] calls for [n];
    the prices of the later calls do not appear. *)
Theorem add_item_accumulates c n ops p1 :
  PyDict.contains n (Cart.items c) = false ->
  ~ In (Cart.RemoveItem n) ops ->
  hd_error (List.map fst (adds_of n ops)) = Some p1 ->
  PyDict.get n (Cart.items (Cart.run ops c))
  = Some (Cart.mkCartItem n p1 (Zsum (List.map snd (adds_of n ops)))).
Proof.
  intros Hc; apply contains_false in Hc. now apply run_absent.
Qed.

End CartFacts.

Section CartTotal.
Context {A : Type} {num : Number A}.
Implicit Types (c : Cart.t A) (xs ys : list A).

Lemma total_new : Cart.total (Cart.new (A := A)) = nzero.
Proof. reflexivity. Qed.

Context {exact : ExactNumber A}.

Lemma nadd_0_r (x : A) : nadd x nzero = x.
Proof. rewrite nadd_comm; apply nadd_0_l. Qed.

Lemma fold_left_nadd xs : forall a, fold_left nadd xs a = nadd a (sigma xs).
Proof.
  induction xs as [|x xs IH]; intros a; simpl.
  - now rewrite nadd_0_r.
  - now rewrite IH, nadd_assoc.
Qed.

(** The accumulator loop of [sum] computes the sum. *)
Lemma py_sum_sigma xs : Cart.py_sum xs = sigma xs.
Proof. unfold Cart.py_sum; rewrite fold_left_nadd; apply nadd_0_l. Qed.


Lemma total_sigma c :
  Cart.total c = sigma (List.map line_total (PyDict.values (Cart.items c))).
Proof. unfold Cart.total; now rewrite py_sum_sigma. Qed.

(** A new entry adds its [price * quantity] to the total. *)
Lemma total_add_item_new c n p q :
  PyDict.contains n (Cart.items c) = false ->
  Cart.total (Cart.add_item n p q c) = nadd (Cart.total c) (nscale p q).
Proof.
  intros Hg; apply contains_false in Hg.
  rewrite !total_sigma; unfold Cart.add_item; rewrite Hg; simpl.
  destruct c as [d]; simpl in *.
  induction d as [|[k v] d IH]; simpl in *.
  - unfold line_total; simpl. now rewrite nadd_0_r, nadd_0_l.
  - destruct (PyStr.eqb n k); [discriminate|]. simpl.
    now rewrite IH, nadd_assoc.
Qed.

End CartTotal.

(** *** The total and the order of the entries *)

Section CartTotalInOrder.
Context {A : Type} {num : Number A}.



End CartTotalInOrder.

(** *** Instances on a concrete cart *)

Section CartExamples.
Local Open Scope Z_scope.
Local Open Scope string_scope.

Lemma cart_frame_witness :
  str "Pizza" <> str "Burger"
  /\ PyDict.contains (str "Salad") (Cart.items example_cart) = false
  /\ PyDict.get (str "Pizza")
       (Cart.items (Cart.add_item (str "Burger") 9 4 example_cart))
     = PyDict.get (str "Pizza") (Cart.items example_cart)
  /\ PyDict.get (str "Pizza")
       (Cart.items (Cart.remove_item (str "Burger") example_cart))
     = PyDict.get (str "Pizza") (Cart.items example_cart)
  /\ Cart.remove_item (str "Salad") example_cart = example_cart.
Proof.
  assert (Hne : str "Pizza" <> str "Burger") by (vm_compute; discriminate).
  split; [exact Hne|]. split; [reflexivity|].
  pose proof (cart_frame example_cart (str "Burger") (str "Pizza") 9 4)
    as [Hother _].
  pose proof (cart_frame example_cart (str "Salad") (str "Pizza") 0 0)
    as [_ Hrm].
  destruct (Hother Hne) as [Hadd Hdel].
  split; [exact Hadd|]. split; [exact Hdel|]. apply Hrm; reflexivity.
Defined.

(** C8 as stated fails: [add_item("Pizza", 10, 0)] on a new cart leaves
    an entry whose quantity is 0. *)
Lemma cart_quantity_zero_reachable :
  ~ (forall (ops : list (Cart.op Z)) (item : Cart.CartItem Z),
        In item (PyDict.values (Cart.items (Cart.run ops Cart.new))) ->
        1 <= Cart.quantity item).
Proof.
  intros Hall.
  specialize (Hall [Cart.AddItem (str "Pizza") 10 0]
                   (Cart.mkCartItem (str "Pizza") 10 0)).
  simpl in Hall. assert (1 <= 0) by (apply Hall; now left). lia.
Qed.

Lemma cart_quantity_at_least_one_witness :
  Forall adds_at_least_one example_ops
  /\ In (Cart.mkCartItem (str "Pizza") 10 5)
        (PyDict.values (Cart.items (Cart.run example_ops Cart.new)))
  /\ 1 <= Cart.quantity (Cart.mkCartItem (str "Pizza") 10 5).
Proof.
  assert (Hops : Forall adds_at_least_one example_ops)
    by (repeat constructor; simpl; lia).
  assert (Hin : In (Cart.mkCartItem (str "Pizza") 10 5)
                   (PyDict.values
                      (Cart.items (Cart.run example_ops Cart.new))))
    by (vm_compute; left; reflexivity).
  split; [exact Hops|]. split; [exact Hin|].
  exact (cart_quantity_at_least_one Hops _ Hin).
Defined.

Lemma add_item_accumulates_witness :
  PyDict.contains (str "Pizza") (Cart.items (Cart.new (A := Z))) = false
  /\ ~ In (Cart.RemoveItem (str "Pizza")) example_ops
  /\ hd_error (List.map fst (adds_of (str "Pizza") example_ops)) = Some 10
  /\ PyDict.get (str "Pizza") (Cart.items (Cart.run example_ops Cart.new))
     = Some (Cart.mkCartItem (str "Pizza") 10 5).
Proof.
  assert (Hrm : ~ In (Cart.RemoveItem (str "Pizza")) example_ops)
    by (simpl; intros [H|[H|[H|[]]]]; discriminate H).
  split; [reflexivity|]. split; [exact Hrm|]. split; [reflexivity|].
  exact (@add_item_accumulates Z Cart.new (str "Pizza") example_ops 10
           eq_refl Hrm eq_refl).
Defined.


End CartExamples.

(** *** Prices in binary64 *)

Section FloatPrices.
Import Binary64.



End FloatPrices.

(** ** Order validation *)

Section OrderFacts.
Context {A : Type}.
Implicit Types (cart : Cart.t A) (menu : RestaurantMenu.t A)
         (item : Cart.CartItem A) (vals : list (Cart.CartItem A)).

Import OrderPlacement.

Lemma check_items_first menu before item after :
  Forall (listed menu) before -> ~ listed menu item ->
  check_items menu (before ++ item :: after)
  = mkVerdict false (Cart.name item ++ str " is not available").
Proof.
  unfold listed; intros Hpre Hbad.
  induction Hpre as [|x before Hx _ IH]; simpl.
  - destruct (RestaurantMenu.has_item (Cart.name item) menu);
      [congruence|reflexivity].
  - now rewrite Hx.
Qed.

Lemma check_items_all menu vals :
  Forall (listed menu) vals ->
  check_items menu vals = mkVerdict true (str "Order is valid").
Proof.
  unfold listed; induction 1 as [|x vals Hx _ IH]; simpl; auto.
  now rewrite Hx.
Qed.

(** Among entries of which one is not listed, there is a first such. *)
Lemma first_unlisted menu vals :
  Exists (fun item => ~ listed menu item) vals ->
  exists before item after,
    vals = before ++ item :: after
    /\ Forall (listed menu) before /\ ~ listed menu item.
Proof.
  induction vals as [|x vals IH]; intros Hex; [inversion Hex|].
  destruct (RestaurantMenu.has_item (Cart.name x) menu) eqn:Hx.
  - inversion Hex as [? ? Hbad|? ? Htl]; subst;
      [unfold listed in Hbad; congruence|].
    destruct (IH Htl) as (before & item & after & -> & Hpre & Hbad).
    exists (x :: before), item, after; repeat split; auto.
  - exists [], x, vals; repeat split; auto.
    unfold listed; congruence.
Qed.

Lemma check_items_never_empty_cart menu vals :
  check_items menu vals <> mkVerdict false (str "Cart is empty").
Proof.
  induction vals as [|x vals IH]; simpl; [discriminate|].
  destruct (RestaurantMenu.has_item (Cart.name x) menu); simpl; auto.
  intros [= Hmsg]. apply (f_equal (@List.length N)) in Hmsg.
  rewrite length_app in Hmsg.
  change (List.length (str " is not available")) with 17%nat in Hmsg.
  change (List.length (str "Cart is empty")) with 13%nat in Hmsg. lia.
Qed.

(** C4. [validate_order] rejects with "Cart is empty" exactly when the
    cart has no entry, whatever the menu; for a cart with an entry whose
    name the menu does not list, it rejects with "<name> is not
    available", <name> being that of the first such entry in insertion
    order; for a cart whose entries are all listed, it accepts with
    "Order is valid". *)
Theorem validate_order_spec cart menu :
  let verdict := validate_order (mk cart menu) in
  let entries := PyDict.values (Cart.items cart) in
  (verdict = mkVerdict false (str "Cart is empty")
   <-> List.length (Cart.items cart) = 0%nat)
  /\ (List.length (Cart.items cart) <> 0%nat ->
      Exists (fun item => ~ listed menu item) entries ->
      exists before item after,
        entries = before ++ item :: after
        /\ Forall (listed menu) before
        /\ ~ listed menu item
        /\ verdict
           = mkVerdict false (Cart.name item ++ str " is not available"))
  /\ (List.length (Cart.items cart) <> 0%nat ->
      Forall (listed menu) entries ->
      verdict = mkVerdict true (str "Order is valid")).
Proof.
  destruct cart as [d]; unfold validate_order; simpl.
  destruct d as [|e d]; simpl.
  - split; [tauto|]. split; intros Hne; congruence.
  - split; [|split].
    + split; [|discriminate].
      intros Hv. exfalso.
      apply (check_items_never_empty_cart menu (snd e :: PyDict.values d)).
      exact Hv.
    + intros _ Hex.
      destruct (first_unlisted Hex) as (before & item & after & Hd & Hp & Hb).
      exists before, item, after. repeat split; auto.
      change (check_items menu (snd e :: PyDict.values d)
              = mkVerdict false (Cart.name item ++ str " is not available")).
      rewrite Hd. now apply check_items_first.
    + intros _ Hall.
      now apply (check_items_all (vals := snd e :: PyDict.values d)).
Qed.

End OrderFacts.

(** ** Card format *)

Section CardFacts.
Import PaymentProcessing.

Lemma existsb_in_range_below (c : N) (rs : list (N * N)) :
  Forall (fun r => (c < fst r)%N) rs ->
  existsb (PyStr.in_range c) rs = false.
Proof.
  induction 1 as [|r rs Hr _ IH]; simpl; auto.
  rewrite IH, orb_false_r. unfold PyStr.in_range.
  apply andb_false_intro1, N.leb_gt, Hr.
Qed.

(** On ASCII characters, [isdigit] holds of ['0'] .. ['9'] only. *)
Lemma isdigit_char_ascii (c : N) :
  PyStr.is_ascii c = true ->
  PyStr.isdigit_char c = PyStr.is_decimal_digit c.
Proof.
  unfold PyStr.is_ascii; intros Hc; apply N.ltb_lt in Hc.
  unfold PyStr.isdigit_char, PyStr.digit_ranges.
  match goal with
  | |- existsb ?f (?r :: ?rs) = _ =>
      change (existsb f (r :: rs)) with (f r || existsb f rs);
      rewrite (@existsb_in_range_below c rs)
  end.
  - now rewrite orb_false_r.
  - repeat constructor; cbn [fst]; lia.
Qed.

Lemma forallb_isdigit_ascii (s : pystr) :
  forallb PyStr.is_ascii s = true ->
  forallb PyStr.isdigit_char s = forallb PyStr.is_decimal_digit s.
Proof.
  induction s as [|c s IH]; simpl; auto.
  intros Hs; apply andb_prop in Hs as [Hc Hs].
  now rewrite isdigit_char_ascii, IH.
Qed.

Lemma isdigit_nonempty (s : pystr) :
  s <> [] -> PyStr.isdigit s = forallb PyStr.isdigit_char s.
Proof. destruct s; [congruence|reflexivity]. Qed.

(** On ASCII input the check agrees with the specified card format. *)
Lemma validate_credit_card_ascii (card_number cvv : pystr) :
  forallb PyStr.is_ascii card_number = true ->
  forallb PyStr.is_ascii cvv = true ->
  validate_credit_card card_number cvv = true
  <-> card_format_ok card_number cvv.
Proof.
  intros Ha Hb; unfold validate_credit_card, card_format_ok, PyStr.len.
  rewrite !andb_true_iff, orb_true_iff, !Z.eqb_eq, !Forall_forall.
  assert (Hcard : card_number <> [] ->
            (PyStr.isdigit card_number = true <->
             forall ch, In ch card_number ->
                        PyStr.is_decimal_digit ch = true)).
  { intros Hne. rewrite isdigit_nonempty, forallb_isdigit_ascii by auto.
    apply forallb_forall. }
  assert (Hcvv : cvv <> [] ->
            (PyStr.isdigit cvv = true <->
             forall ch, In ch cvv -> PyStr.is_decimal_digit ch = true)).
  { intros Hne. rewrite isdigit_nonempty, forallb_isdigit_ascii by auto.
    apply forallb_forall. }
  split.
  - intros [[[Hl1 Hl2] Hd1] Hd2].
    assert (card_number <> []) by (intros ->; simpl in Hl1; lia).
    assert (cvv <> []) by (intros ->; simpl in Hl2; lia).
    repeat split; try tauto; try lia.
  - intros (Hd1 & Hl1 & Hd2 & Hl2).
    assert (card_number <> []) by (intros ->; simpl in Hl1; lia).
    assert (cvv <> []) by (intros ->; simpl in Hl2; lia).
    repeat split; try tauto; try lia.
Qed.

(** Every card that has the specified format passes the check. *)
Lemma card_format_ok_accepted (card_number cvv : pystr) :
  card_format_ok card_number cvv ->
  validate_credit_card card_number cvv = true.
Proof.
  intros Hok.
  assert (Hascii : forall s : pystr,
             Forall (fun ch => PyStr.is_decimal_digit ch = true) s ->
             forallb PyStr.is_ascii s = true).
  { intros s Hs; apply forallb_forall; intros ch Hin.
    rewrite Forall_forall in Hs. specialize (Hs ch Hin).
    unfold PyStr.is_decimal_digit in Hs; unfold PyStr.is_ascii.
    apply andb_prop in Hs as [_ Hle]. apply N.leb_le in Hle.
    apply N.ltb_lt; lia. }
  destruct Hok as (Hd1 & Hl1 & Hd2 & Hl2).
  apply validate_credit_card_ascii; auto.
  repeat split; auto.
Qed.

(** C5, where the code departs from it. A card number of sixteen
    SUPERSCRIPT TWO characters holds no decimal digit, yet
    [validate_credit_card] accepts it with the cvv "123": [isdigit] also
    holds of characters that are digits without being decimal digits. *)
Theorem validate_credit_card_accepts_superscripts :
  validate_credit_card superscript_twos (str "123") = true
  /\ ~ card_format_ok superscript_twos (str "123")
  /\ Forall (fun ch => PyStr.is_decimal_digit ch = false) superscript_twos.
Proof.
  split; [reflexivity|]. split.
  - intros (Hd & _). inversion Hd as [|? ? Hch _]. discriminate Hch.
  - repeat constructor.
Qed.

End CardFacts.

(** ** Payment processing *)

Section PaymentFacts.
Import PaymentMethod PaymentProcessing.

Lemma mem_supported (method : pystr) :
  PyStr.mem method SUPPORTED_METHODS = true
  <-> In method SUPPORTED_METHODS.
Proof.
  unfold PyStr.mem; rewrite existsb_exists; split.
  - intros (x & Hin & Heq). apply pystr_eqb_eq in Heq. now subst.
  - intros Hin; exists method; split; [assumption|apply pystr_eqb_refl].
Qed.

Lemma validate_supported (method : pystr) :
  In method SUPPORTED_METHODS ->
  validate_payment_method method = Return true.
Proof.
  intros Hin; apply mem_supported in Hin.
  unfold validate_payment_method; now rewrite Hin.
Qed.

Lemma validate_unsupported (method : pystr) :
  ~ In method SUPPORTED_METHODS ->
  validate_payment_method method
  = Raise (ValueError (str "Invalid payment method")).
Proof.
  intros Hin; unfold validate_payment_method.
  destruct (PyStr.mem method SUPPORTED_METHODS) eqn:Hm; auto.
  apply mem_supported in Hm; contradiction.
Qed.

Lemma supported_dec (method : pystr) :
  {In method SUPPORTED_METHODS} + {~ In method SUPPORTED_METHODS}.
Proof.
  destruct (PyStr.mem method SUPPORTED_METHODS) eqn:Hm.
  - left; now apply mem_supported.
  - right; intros Hin; apply mem_supported in Hin; congruence.
Qed.

Context {A : Type}.
Implicit Types (gw : PaymentMethod.t A) (log : list (Call A)) (amount : A)
         (method card_number cvv : pystr).

(** An unsupported method ends the call before any gateway call. *)
Lemma process_payment_unsupported amount method card_number cvv :
  ~ In method SUPPORTED_METHODS ->
  process_payment amount method card_number cvv
  = Ret (Return (str "Error: Invalid payment method")).
Proof.
  intros Hin; unfold process_payment.
  now rewrite validate_unsupported.
Qed.

(** So does a card of the wrong format. *)
Lemma process_payment_bad_card amount method card_number cvv :
  In method SUPPORTED_METHODS ->
  validate_credit_card card_number cvv = false ->
  process_payment amount method card_number cvv
  = Ret (Return (str "Payment failed, please try again")).
Proof.
  intros Hin Hcard; unfold process_payment.
  now rewrite validate_supported, Hcard.
Qed.

Lemma supported_credit_card (method : pystr) :
  In method SUPPORTED_METHODS <-> method = str "credit_card".
Proof. unfold SUPPORTED_METHODS; simpl; intuition congruence. Qed.

(** C9. [validate_payment_method] raises [ValueError("Invalid payment
    method")] exactly for the methods outside the supported set, which is
    {"credit_card"}, and returns [True] for the others; [process_payment]
    never raises: for an unsupported method it returns the message made
    from the error. *)
Theorem validate_payment_method_spec method :
  SUPPORTED_METHODS = [str "credit_card"]
  /\ (validate_payment_method method
      = Raise (ValueError (str "Invalid payment method"))
      <-> method <> str "credit_card")
  /\ (method = str "credit_card" ->
      validate_payment_method method = Return true)
  /\ forall gw log amount card_number cvv,
       exists message,
         fst (exec gw (process_payment amount method card_number cvv) log)
         = Return message
         /\ (method <> str "credit_card" ->
             message = str "Error: Invalid payment method").
Proof.
  split; [reflexivity|]. split; [|split].
  - rewrite <- supported_credit_card.
    split; [|apply validate_unsupported].
    intros Hraise Hin. rewrite validate_supported in Hraise by assumption.
    discriminate.
  - intros Hm; apply validate_supported, supported_credit_card, Hm.
  - intros gw log amount card_number cvv.
    destruct (supported_dec method) as [Hin|Hout].
    + assert (Hm : method = str "credit_card")
        by now apply supported_credit_card.
      unfold process_payment; rewrite validate_supported by assumption.
      destruct (validate_credit_card card_number cvv); simpl.
      * destruct (gw log amount _); simpl; eexists;
          (split; [reflexivity|intros Hne; now elim Hne]).
      * eexists; split; [reflexivity|intros Hne; now elim Hne].
    + rewrite process_payment_unsupported by assumption; simpl.
      eexists; split; reflexivity.
Qed.

(** C2. With a supported method and a card that passes the format check,
    [process_payment] calls the gateway once, with the amount it was
    given and a payload that maps "card_number", "cvv" and "method" to
    its arguments, and returns "Payment successful, Order confirmed" if
    the gateway answers [True] and "Payment failed, please try again" if
    it answers [False]. *)
Theorem process_payment_calls_gateway_once
        gw log amount method card_number cvv :
  In method SUPPORTED_METHODS ->
  validate_credit_card card_number cvv = true ->
  exists payload,
    PyDict.get (str "card_number") payload = Some card_number
    /\ PyDict.get (str "cvv") payload = Some cvv
    /\ PyDict.get (str "method") payload = Some method
    /\ snd (exec gw (process_payment amount method card_number cvv) log)
       = log ++ [(amount, payload)]
    /\ (gw log amount payload = true ->
        fst (exec gw (process_payment amount method card_number cvv) log)
        = Return (str "Payment successful, Order confirmed"))
    /\ (gw log amount payload = false ->
        fst (exec gw (process_payment amount method card_number cvv) log)
        = Return (str "Payment failed, please try again")).
Proof.
  intros Hin Hcard.
  exists [ (str "card_number", card_number); (str "cvv", cvv);
           (str "method", method) ].
  unfold process_payment; rewrite validate_supported, Hcard by assumption.
  simpl negb; cbv iota.
  split; [reflexivity|]. split; [reflexivity|]. split; [reflexivity|].
  cbn [exec].
  destruct (gw log amount _) eqn:Hgw; simpl;
    (split; [reflexivity|split; congruence]).
Qed.

(** X22. For an unsupported method [process_payment] returns "Error:
    Invalid payment method", and for a supported method with a card on
    which [validate_credit_card] returns [False] it returns "Payment
    failed, please try again"; in both cases the gateway receives no
    call. *)
Theorem process_payment_rejects_without_gateway
        gw log amount method card_number cvv :
  (~ In method SUPPORTED_METHODS ->
   exec gw (process_payment amount method card_number cvv) log
   = (Return (str "Error: Invalid payment method"), log))
  /\ (In method SUPPORTED_METHODS ->
      validate_credit_card card_number cvv = false ->
      exec gw (process_payment amount method card_number cvv) log
      = (Return (str "Payment failed, please try again"), log)).
Proof.
  split.
  - intros Hout; now rewrite process_payment_unsupported.
  - intros Hin Hcard; now rewrite process_payment_bad_card.
Qed.

(** C3, where the code departs from it. The card number of sixteen
    SUPERSCRIPT TWO characters does not have the specified format, yet
    with the supported method [process_payment] does not stop at the
    format check: whatever the gateway, it receives a call with that card
    number, and with the payment method of the source the order is
    confirmed. *)
Theorem process_payment_charges_superscript_card log amount :
  In (str "credit_card") SUPPORTED_METHODS
  /\ ~ card_format_ok superscript_twos (str "123")
  /\ (forall gw,
        snd (exec gw (process_payment amount (str "credit_card")
                        superscript_twos (str "123")) log)
        = log ++ [(amount,
                   [ (str "card_number", superscript_twos);
                     (str "cvv", str "123");
                     (str "method", str "credit_card") ])])
  /\ fst (exec PaymentMethod.process_payment
            (process_payment amount (str "credit_card")
               superscript_twos (str "123")) log)
     = Return (str "Payment successful, Order confirmed").
Proof.
  split; [left; reflexivity|]. split.
  - intros (Hd & _). inversion Hd as [|? ? Hch _]. discriminate Hch.
  - split; [intros gw; cbn; destruct (gw log amount _)|]; reflexivity.
Qed.

End PaymentFacts.

(** ** Order workflow *)

Section WorkflowFacts.
Import PaymentMethod.
Context {A : Type} {num : Number A}.

(** C1. In [placeOrder], when [validate_order] rejects, the outcome is
    the reason of the verdict, whatever the payment processor, which is
    not run, and the gateway receives no call; when it accepts, the
    outcome is that of [process_payment] on [cart.total()] and the given
    payment credentials. *)
Theorem placeOrder_spec (cart : Cart.t A) (menu : RestaurantMenu.t A)
        (paymentMethod cardNumber cvv : pystr) :
  let verdict :=
    OrderPlacement.validate_order (OrderPlacement.mk cart menu) in
  (OrderPlacement.success verdict = false ->
     (forall processor : OrderWorkflow.Processor,
         OrderWorkflow.placeOrder processor cart menu
           paymentMethod cardNumber cvv
         = Ret (Return (OrderPlacement.message verdict)))
     /\ forall (gw : PaymentMethod.t A) log,
         exec gw (OrderWorkflow.placeOrder
                    PaymentProcessing.process_payment cart menu
                    paymentMethod cardNumber cvv) log
         = (Return (OrderPlacement.message verdict), log))
  /\ (OrderPlacement.success verdict = true ->
      OrderWorkflow.placeOrder PaymentProcessing.process_payment cart menu
        paymentMethod cardNumber cvv
      = PaymentProcessing.process_payment (Cart.total cart)
          paymentMethod cardNumber cvv).
Proof.
  intros verdict; unfold OrderWorkflow.placeOrder; fold verdict.
  split; intros Hv; rewrite Hv; simpl; auto.
Qed.

End WorkflowFacts.

(** *** Instances on concrete orders *)

Section OrderExamples.
Import PaymentMethod PaymentProcessing.
Local Open Scope Z_scope.

Lemma validate_order_spec_witness :
  (OrderPlacement.validate_order
     (OrderPlacement.mk (Cart.new (A := Z)) example_menu)
   = OrderPlacement.mkVerdict false (str "Cart is empty"))
  /\ (exists before item after,
        PyDict.values (Cart.items salad_cart) = before ++ item :: after
        /\ Forall (listed example_menu) before
        /\ ~ listed example_menu item
        /\ OrderPlacement.validate_order
             (OrderPlacement.mk salad_cart example_menu)
           = OrderPlacement.mkVerdict false
               (Cart.name item ++ str " is not available"))
  /\ OrderPlacement.validate_order
       (OrderPlacement.mk example_cart example_menu)
     = OrderPlacement.mkVerdict true (str "Order is valid").
Proof.
  split; [|split].
  - apply (proj1 (validate_order_spec Cart.new example_menu)).
    reflexivity.
  - apply (proj1 (proj2 (validate_order_spec salad_cart example_menu))).
    + discriminate.
    + vm_compute. do 2 apply Exists_cons_tl. apply Exists_cons_hd.
      discriminate.
  - apply (proj2 (proj2 (validate_order_spec example_cart example_menu))).
    + discriminate.
    + repeat constructor.
Defined.

Lemma validate_payment_method_spec_witness :
  str "cash" <> str "credit_card"
  /\ validate_payment_method (str "cash")
     = Raise (ValueError (str "Invalid payment method"))
  /\ validate_payment_method (str "credit_card") = Return true.
Proof.
  assert (Hne : str "cash" <> str "credit_card")
    by (vm_compute; discriminate).
  split; [exact Hne|]. split.
  - apply (proj1 (proj2 (validate_payment_method_spec (A := Z)
                           (str "cash")))).
    exact Hne.
  - apply (proj1 (proj2 (proj2
             (validate_payment_method_spec (A := Z) (str "credit_card"))))).
    reflexivity.
Defined.

Lemma process_payment_calls_gateway_once_witness :
  In (str "credit_card") SUPPORTED_METHODS
  /\ validate_credit_card (str "4242424242424242") (str "123") = true
  /\ exists payload,
       PyDict.get (str "card_number") payload
       = Some (str "4242424242424242")
       /\ PyDict.get (str "cvv") payload = Some (str "123")
       /\ PyDict.get (str "method") payload = Some (str "credit_card")
       /\ snd (exec declining
                 (process_payment 10 (str "credit_card")
                    (str "4242424242424242") (str "123")) [])
          = [] ++ [(10, payload)]
       /\ (declining [] 10 payload = true ->
           fst (exec declining
                  (process_payment 10 (str "credit_card")
                     (str "4242424242424242") (str "123")) [])
           = Return (str "Payment successful, Order confirmed"))
       /\ (declining [] 10 payload = false ->
           fst (exec declining
                  (process_payment 10 (str "credit_card")
                     (str "4242424242424242") (str "123")) [])
           = Return (str "Payment failed, please try again")).
Proof.
  assert (Hin : In (str "credit_card") SUPPORTED_METHODS)
    by (left; reflexivity).
  split; [exact Hin|]. split; [reflexivity|].
  exact (@process_payment_calls_gateway_once Z declining [] 10
           (str "credit_card") (str "4242424242424242") (str "123")
           Hin eq_refl).
Defined.

Lemma process_payment_rejects_without_gateway_witness :
  ~ In (str "cash") SUPPORTED_METHODS
  /\ In (str "credit_card") SUPPORTED_METHODS
  /\ validate_credit_card (str "123") (str "123") = false
  /\ exec declining
       (process_payment 10 (str "cash") (str "4242424242424242")
          (str "123")) []
     = (Return (str "Error: Invalid payment method"), [])
  /\ exec PaymentMethod.process_payment
       (process_payment 10 (str "credit_card") (str "123") (str "123")) []
     = (Return (str "Payment failed, please try again"), []).
Proof.
  assert (Hout : ~ In (str "cash") SUPPORTED_METHODS)
    by (intros [H|[]]; vm_compute in H; discriminate H).
  assert (Hin : In (str "credit_card") SUPPORTED_METHODS)
    by (left; reflexivity).
  split; [exact Hout|]. split; [exact Hin|]. split; [reflexivity|].
  split.
  - exact (proj1 (@process_payment_rejects_without_gateway Z declining []
                    10 (str "cash") (str "4242424242424242") (str "123"))
                 Hout).
  - exact (proj2 (@process_payment_rejects_without_gateway Z
                    PaymentMethod.process_payment [] 10
                    (str "credit_card") (str "123") (str "123"))
                 Hin eq_refl).
Defined.

Lemma placeOrder_spec_witness :
  OrderPlacement.success
    (OrderPlacement.validate_order
       (OrderPlacement.mk salad_cart example_menu)) = false
  /\ OrderPlacement.success
       (OrderPlacement.validate_order
          (OrderPlacement.mk example_cart example_menu)) = true
  /\ exec declining
       (OrderWorkflow.placeOrder process_payment salad_cart example_menu
          (str "credit_card") (str "4242424242424242") (str "123")) []
     = (Return (str "Salad is not available"), [])
  /\ OrderWorkflow.placeOrder process_payment example_cart example_menu
       (str "credit_card") (str "4242424242424242") (str "123")
     = process_payment 58 (str "credit_card") (str "4242424242424242")
         (str "123").
Proof.
  split; [reflexivity|]. split; [reflexivity|]. split.
  - exact (proj2 (proj1 (@placeOrder_spec Z _ salad_cart example_menu
                           (str "credit_card") (str "4242424242424242")
                           (str "123")) eq_refl) declining []).
  - exact (proj2 (@placeOrder_spec Z _ example_cart example_menu
                    (str "credit_card") (str "4242424242424242")
                    (str "123")) eq_refl).
Defined.

End OrderExamples.

(** ** Splitting a string *)

Section SplitFacts.
Import PyStrOps.
Implicit Types (s a b : pystr) (sep c : N).

Lemma has_char_In c s : has_char c s = true <-> In c s.
Proof.
  unfold has_char; rewrite existsb_exists; split.
  - intros (x & Hin & Heq). apply N.eqb_eq in Heq. now subst.
  - intros Hin; exists c; split; [assumption|apply N.eqb_refl].
Qed.

Lemma split_not_nil sep s : split sep s <> [].
Proof.
  destruct s as [|c s]; simpl; [discriminate|].
  destruct (N.eqb c sep); [discriminate|].
  destruct (split sep s); discriminate.
Qed.

(** A string without the separator is its own single segment. *)
Lemma split_without sep s : ~ In sep s -> split sep s = [s].
Proof.
  induction s as [|c s IH]; simpl; auto.
  intros Hnin. destruct (N.eqb_spec c sep) as [->|Hne]; [tauto|].
  rewrite IH by tauto. reflexivity.
Qed.

(** A string with the separator has at least two segments. *)
Lemma split_with sep s :
  In sep s -> exists seg x rest, split sep s = seg :: x :: rest.
Proof.
  induction s as [|c s IH]; simpl; [tauto|].
  intros Hin. destruct (N.eqb_spec c sep) as [->|Hne].
  - destruct (split sep s) as [|x rest] eqn:Hs;
      [now apply split_not_nil in Hs|]. eauto.
  - destruct IH as (seg & x & rest & ->); [tauto|]. eauto.
Qed.

(** The last segment is what follows the last separator. *)
Lemma last_segment_after sep a b :
  ~ In sep b -> last_segment (split sep (a ++ sep :: b)) = b.
Proof.
  intros Hb; unfold last_segment.
  induction a as [|c a IH]; simpl.
  - rewrite N.eqb_refl, split_without by assumption. reflexivity.
  - destruct (split_with sep (a ++ sep :: b)) as (seg & x & rest & Hs);
      [apply in_elt|].
    rewrite Hs in *.
    destruct (N.eqb c sep); exact IH.
Qed.

(** Where a character occurs, it occurs a last time. *)
Lemma in_split_last c s :
  In c s -> exists a b, s = a ++ c :: b /\ ~ In c b.
Proof.
  induction s as [|x s IH]; [intros []|].
  intros Hin. destruct (in_dec N.eq_dec c s) as [Hs|Hs].
  - destruct (IH Hs) as (a & b & -> & Hb). now exists (x :: a), b.
  - destruct Hin as [->|Hin]; [|contradiction]. now exists [], s.
Qed.

End SplitFacts.

(** ** User registry *)

Section RegistryFacts.
Import UserRegistry.
Implicit Types (r : UserRegistry.t) (e pw c : pystr)
         (calls : list UserRegistry.call).

(** X1. An email is valid exactly when it holds an ['@'] and a ['.'] comes
    somewhere after its last ['@']. *)
Theorem is_valid_email_iff e :
  _is_valid_email e = true
  <-> exists a b,
        e = a ++ PyStrOps.at_sign :: b
        /\ ~ In PyStrOps.at_sign b
        /\ In PyStrOps.full_stop b.
Proof.
  unfold _is_valid_email; rewrite andb_true_iff, !has_char_In; split.
  - intros [Hat Hdot].
    destruct (in_split_last _ _ Hat) as (a & b & -> & Hb).
    rewrite last_segment_after in Hdot by assumption. eauto.
  - intros (a & b & -> & Hb & Hdot).
    rewrite last_segment_after by assumption.
    split; [apply in_elt|assumption].
Qed.

Lemma register_cases e pw c r :
  (success (fst (register e pw c r)) = false /\ snd (register e pw c r) = r
   /\ (_is_valid_email e = false \/ pw <> c
       \/ _is_strong_password pw = false \/ is_registered e r = true))
  \/ (success (fst (register e pw c r)) = true
      /\ snd (register e pw c r)
         = mk (PyDict.set e (mkUser e pw) (_users r))
      /\ _is_valid_email e = true /\ pw = c
      /\ _is_strong_password pw = true /\ is_registered e r = false).
Proof.
  unfold register, is_registered.
  destruct (_is_valid_email e); simpl; [|left; auto 10].
  destruct (pystr_eqb_spec pw c) as [->|Hne]; simpl; [|left; auto 10].
  destruct (_is_strong_password c); simpl; [|left; auto 10].
  destruct (PyDict.contains e (_users r)); simpl; [left; auto 10|].
  right; auto 10.
Qed.

(** X2. [register] succeeds exactly when the email is valid, the two
    passwords are equal, the password is strong and the email is not yet
    registered. A call that fails leaves the registry as it was; one that
    succeeds files the user under the email, with the password given. *)
Theorem register_outcome e pw c r :
  (success (fst (register e pw c r)) = true
   <-> _is_valid_email e = true /\ pw = c
       /\ _is_strong_password pw = true /\ is_registered e r = false)
  /\ (success (fst (register e pw c r)) = false ->
      snd (register e pw c r) = r)
  /\ (success (fst (register e pw c r)) = true ->
      is_registered e (snd (register e pw c r)) = true
      /\ PyDict.get e (_users (snd (register e pw c r)))
         = Some (mkUser e pw)).
Proof.
  destruct (register_cases e pw c r)
    as [(Hs & Hr & Hwhy)|(Hs & Hr & Hv & Hpw & Hst & Hnew)];
    rewrite Hs, Hr.
  - split; [|split]; [|reflexivity|discriminate].
    split; [discriminate|]. intros (Hv & Hpw & Hst & Hnew).
    destruct Hwhy as [H|[H|[H|H]]]; congruence.
  - split; [|split]; [tauto|discriminate|].
    intros _. unfold is_registered, PyDict.contains; simpl.
    now rewrite get_set_same.
Qed.

Lemma register_keeps e pw c r k u :
  PyDict.get k (_users r) = Some u ->
  PyDict.get k (_users (snd (register e pw c r))) = Some u.
Proof.
  intros Hk.
  destruct (register_cases e pw c r)
    as [(_ & -> & _)|(_ & -> & _ & _ & _ & Hnew)]; auto.
  simpl. rewrite get_set_other; auto.
  intros ->. unfold is_registered, PyDict.contains in Hnew.
  now rewrite Hk in Hnew.
Qed.

Lemma run_cons_registry e pw c calls r :
  run ((e, pw, c) :: calls) r = run calls (snd (register e pw c r)).
Proof. reflexivity. Qed.

Lemma run_keeps_user calls r k u :
  PyDict.get k (_users r) = Some u ->
  PyDict.get k (_users (run calls r)) = Some u.
Proof.
  revert r; induction calls as [|[[e pw] c] calls IH]; intros r Hk; auto.
  rewrite run_cons_registry. now apply IH, register_keeps.
Qed.

(** X3. No sequence of [register] calls changes or removes a user that is
    already registered: the first registration of an email stands. *)
Theorem registered_user_is_kept calls r k u :
  PyDict.get k (_users r) = Some u ->
  PyDict.get k (_users (run calls r)) = Some u.
Proof. apply run_keeps_user. Qed.

(** X4. Once [register] has succeeded for an email, every later call for
    that email fails, whatever the password and whatever calls came in
    between. *)
Theorem register_twice_fails e pw c r calls pw' c' :
  success (fst (register e pw c r)) = true ->
  success (fst (register e pw' c' (run calls (snd (register e pw c r)))))
  = false.
Proof.
  intros Hs.
  assert (Hget : PyDict.get e (_users (snd (register e pw c r)))
                 = Some (mkUser e pw)).
  { destruct (register_cases e pw c r) as [(Hf & _)|(_ & -> & _)];
      [congruence|]. simpl. apply get_set_same. }
  apply (run_keeps_user calls) in Hget.
  destruct (register_cases e pw' c' (run calls (snd (register e pw c r))))
    as [(Hf & _)|(_ & _ & _ & _ & _ & Hnew)]; auto.
  unfold is_registered, PyDict.contains in Hnew. now rewrite Hget in Hnew.
Qed.

Lemma set_absent (V : Type) (k : pystr) (v : V) (d : PyDict.t V) :
  PyDict.get k d = None -> PyDict.set k v d = d ++ [(k, v)].
Proof.
  induction d as [|[k1 v1] d IH]; simpl; auto.
  destruct (PyStr.eqb k k1); [discriminate|].
  intros Hn; now rewrite IH.
Qed.

Lemma register_ok e pw c r :
  registry_ok r -> registry_ok (snd (register e pw c r)).
Proof.
  intros [Hwf Hall].
  destruct (register_cases e pw c r)
    as [(_ & -> & _)|(_ & -> & Hv & _ & Hst & Hnew)]; [now split|].
  split; simpl; [now apply wf_set|].
  apply contains_false in Hnew. rewrite set_absent by assumption.
  intros k u Hin. apply in_app_or in Hin as [Hold|[[= <- <-]|[]]]; auto.
Qed.

(** X5. In every registry built from [UserRegistry()] by [register] calls,
    no email is filed twice and every stored user is filed under its own
    email, which is valid, with a strong password. *)
Theorem registry_invariant calls : registry_ok (run calls new).
Proof.
  assert (Hgen : forall r, registry_ok r -> registry_ok (run calls r)).
  { induction calls as [|[[e pw] c] calls IH]; intros r Hr; auto.
    rewrite run_cons_registry. now apply IH, register_ok. }
  apply Hgen. split; [constructor|intros k u []].
Qed.

End RegistryFacts.

(** ** Loops that select *)

(** A loop that appends the elements it keeps and skips the others builds
    the sublist of the kept elements. *)
Lemma fold_left_select (X : Type) (keep : X -> bool)
      (step : list X -> X -> list X) :
  (forall acc x, step acc x = if keep x then acc ++ [x] else acc) ->
  forall l acc, fold_left step l acc = acc ++ filter keep l.
Proof.
  intros Hstep; induction l as [|x l IH]; intros acc; simpl.
  - now rewrite app_nil_r.
  - rewrite IH, Hstep. destruct (keep x); auto.
    now rewrite <- app_assoc.
Qed.

(** ** Restaurant search *)

Section SearchFacts.
Import RestaurantDatabase RestaurantBrowsing.
Context {R : Type} {rating_lt : Rating R}.
Implicit Types (c l : option pystr) (m : option R)
         (r : Restaurant R) (d : RestaurantDatabase.t R)
         (self : RestaurantBrowsing.t R).

Lemma passes_text_iff (f : option pystr) (field : pystr) :
  passes_text f field = true <-> (forall s, f = Some s -> s <> [] -> field = s).
Proof.
  destruct f as [[|ch rest]|]; simpl.
  - split; auto. intros _ s [= <-] Hne. congruence.
  - destruct (pystr_eqb_spec field (ch :: rest)) as [->|Hne].
    + split; auto. now intros _ s [= <-].
    + split; [discriminate|]. intros Hs. exfalso; apply Hne, Hs; congruence.
  - split; auto. discriminate.
Qed.

Lemma search_keeps_iff c l m r :
  search_keeps c l m r = true <-> restaurant_matches c l m r.
Proof.
  unfold search_keeps, restaurant_matches.
  rewrite !andb_true_iff, !passes_text_iff.
  assert (Hm : match m with
               | Some x => negb (rlt (rating r) x)
               | None => true
               end = true
               <-> forall x, m = Some x -> rlt (rating r) x = false).
  { destruct m as [x|].
    - rewrite negb_true_iff. split; [now intros Hx y [= <-]|auto].
    - split; [discriminate|auto]. }
  rewrite Hm. tauto.
Qed.

Lemma search_step_keeps c l m (results : list (Restaurant R)) r :
  search_step c l m results r
  = if search_keeps c l m r then results ++ [r] else results.
Proof.
  unfold search_step, search_keeps, passes_text, PyStrOps.truthy.
  destruct c as [[|c1 cs]|]; destruct l as [[|l1 ls]|]; simpl;
    repeat match goal with
           | |- context [PyStr.eqb ?a ?b] => destruct (PyStr.eqb a b); simpl
           end;
    destruct m as [x|]; simpl; try reflexivity;
    destruct (rlt (rating r) x); reflexivity.
Qed.

Lemma search_filter c l m self :
  search c l m self = filter (search_keeps c l m) (all (db self)).
Proof.
  unfold search.
  now rewrite (fold_left_select (search_keeps c l m))
    by (intros; apply search_step_keeps).
Qed.

(** X6. [search] returns, in the order of the database and as often as
    they are stored, exactly the restaurants that pass the three filters;
    a filter that is [None] lets every restaurant through, and so does a
    cuisine or location filter that is the empty string. *)
Theorem search_selects c l m self :
  exists keep : Restaurant R -> bool,
    search c l m self = filter keep (all (db self))
    /\ forall r, keep r = true <-> restaurant_matches c l m r.
Proof.
  exists (search_keeps c l m); split;
    [apply search_filter|apply search_keeps_iff].
Qed.

(** X7. Without a rating bound, and with a cuisine and a location that
    are each [None] or the empty string, [search] returns the whole
    database. *)
Theorem search_unfiltered c l self :
  PyStrOps.truthy c = false -> PyStrOps.truthy l = false ->
  search c l None self = all (db self).
Proof.
  intros Hc Hl. rewrite search_filter.
  assert (Hall : forall r, search_keeps c l None r = true).
  { intros r; unfold search_keeps, passes_text.
    destruct c as [[|? ?]|]; destruct l as [[|? ?]|];
      simpl in *; congruence. }
  induction (all (db self)) as [|r rs IH]; simpl; auto.
  now rewrite Hall, IH.
Qed.

(** X8. After [add_restaurant], a search returns what it returned before,
    followed by the new restaurant if it passes the filters. *)
Theorem search_after_add c l m d r :
  (restaurant_matches c l m r ->
   search c l m (RestaurantBrowsing.mk (add_restaurant r d))
   = search c l m (RestaurantBrowsing.mk d) ++ [r])
  /\ (~ restaurant_matches c l m r ->
      search c l m (RestaurantBrowsing.mk (add_restaurant r d))
      = search c l m (RestaurantBrowsing.mk d)).
Proof.
  rewrite !search_filter; unfold add_restaurant, all; simpl.
  rewrite filter_app; simpl. rewrite <- search_keeps_iff.
  destruct (search_keeps c l m r); split; intros Hr;
    try congruence; auto using app_nil_r.
Qed.

(** X9. A search with several filters returns the restaurants that each
    filter alone returns. *)
Theorem search_conjunction c l m self r :
  In r (search c l m self)
  <-> In r (search c None None self)
      /\ In r (search None l None self)
      /\ In r (search None None m self).
Proof.
  rewrite !search_filter, !filter_In. unfold search_keeps; simpl.
  rewrite !andb_true_r, !andb_true_iff. tauto.
Qed.

End SearchFacts.

(** ** Order history *)

Section HistoryFacts.
Import OrderHistory.
Context {I A : Type}.
Implicit Types (st dt : option pystr) (o : Order I A)
         (h : OrderHistory.t I A).

Lemma passes_exact_iff (f : option pystr) (field : pystr) :
  passes_exact f field = true <-> (forall s, f = Some s -> field = s).
Proof.
  destruct f as [s|]; simpl.
  - destruct (pystr_eqb_spec field s) as [->|Hne].
    + split; auto. now intros _ x [= <-].
    + split; [discriminate|]. intros Hs. exfalso; apply Hne, Hs; congruence.
  - split; auto. discriminate.
Qed.

Lemma order_keeps_iff st dt o :
  order_keeps st dt o = true <-> order_matches st dt o.
Proof.
  unfold order_keeps, order_matches.
  now rewrite andb_true_iff, !passes_exact_iff.
Qed.

Lemma filter_step_keeps st dt (acc : list (Order I A)) o :
  filter_step st dt acc o
  = if order_keeps st dt o then acc ++ [o] else acc.
Proof.
  unfold filter_step, order_keeps, passes_exact.
  destruct st as [s|]; destruct dt as [d|]; simpl;
    repeat match goal with
           | |- context [PyStr.eqb ?a ?b] => destruct (PyStr.eqb a b); simpl
           end; reflexivity.
Qed.

Lemma filter_orders_filter st dt h :
  filter_orders st dt h = filter (order_keeps st dt) (orders h).
Proof.
  unfold filter_orders.
  now rewrite (fold_left_select (order_keeps st dt))
    by (intros; apply filter_step_keeps).
Qed.

(** X10. [filter_orders] returns, in the order of the history, exactly the
    orders whose status and date equal the filters given; only a filter
    that is [None] lets every order through, and without any filter the
    result is the whole history. *)
Theorem filter_orders_selects st dt h :
  (exists keep : Order I A -> bool,
      filter_orders st dt h = filter keep (view_order_history h)
      /\ forall o, keep o = true <-> order_matches st dt o)
  /\ filter_orders None None h = view_order_history h.
Proof.
  split.
  - exists (order_keeps st dt); split;
      [apply filter_orders_filter|apply order_keeps_iff].
  - rewrite filter_orders_filter; unfold view_order_history.
    induction (orders h) as [|o os IH]; simpl; auto. now rewrite IH.
Qed.

(** X11. After [add_order], the history is the former one followed by the
    new order, made of the five arguments, and [filter_orders] returns
    what it returned before, followed by the new order if its status and
    date pass the filters. *)
Theorem add_order_appends (oid : pystr) (its : I) (tot : A)
        (s d : pystr) st dt h :
  let o := mkOrder oid its tot s d in
  view_order_history (add_order oid its tot s d h)
  = view_order_history h ++ [o]
  /\ (order_matches st dt o ->
      filter_orders st dt (add_order oid its tot s d h)
      = filter_orders st dt h ++ [o])
  /\ (~ order_matches st dt o ->
      filter_orders st dt (add_order oid its tot s d h)
      = filter_orders st dt h).
Proof.
  intros o; split; [reflexivity|].
  rewrite !filter_orders_filter; unfold add_order; simpl.
  rewrite filter_app; simpl. fold o. rewrite <- order_keeps_iff.
  destruct (order_keeps st dt o); split; intros Ho;
    try congruence; auto using app_nil_r.
Qed.

End HistoryFacts.

(** ** More about dictionaries *)

Section MoreDictFacts.
Variable V : Type.
Implicit Types (d : PyDict.t V) (k : pystr) (v : V).

Lemma pop_set_absent k v d :
  PyDict.get k d = None -> PyDict.pop k (PyDict.set k v d) = d.
Proof.
  induction d as [|[k1 v1] d IH]; simpl.
  - now rewrite pystr_eqb_refl.
  - destruct (PyStr.eqb k k1) eqn:E; [discriminate|]. simpl; rewrite E.
    intros Hn; now rewrite IH.
Qed.

Lemma set_set k v1 v2 d :
  PyDict.set k v2 (PyDict.set k v1 d) = PyDict.set k v2 d.
Proof.
  induction d as [|[k1 w] d IH]; simpl.
  - now rewrite pystr_eqb_refl.
  - destruct (PyStr.eqb k k1) eqn:E; simpl; rewrite E; auto.
    now rewrite IH.
Qed.

Lemma in_set_inv k v d k0 v0 :
  In (k0, v0) (PyDict.set k v d) ->
  In (k0, v0) d \/ (k0 = k /\ v0 = v).
Proof.
  induction d as [|[k1 v1] d IH]; simpl.
  - intros [[= <- <-]|[]]; auto.
  - destruct (pystr_eqb_spec k k1) as [->|Hne]; simpl.
    + intros [[= <- <-]|Hin]; auto.
    + intros [Heq|Hin]; auto. destruct (IH Hin); auto.
Qed.

Lemma in_pop_inv k d (x : pystr * V) : In x (PyDict.pop k d) -> In x d.
Proof.
  induction d as [|[k1 v1] d IH]; simpl; auto.
  destruct (PyStr.eqb k k1); simpl; intuition.
Qed.

Lemma get_some_in k v d : PyDict.get k d = Some v -> In (k, v) d.
Proof.
  induction d as [|[k1 v1] d IH]; simpl; [discriminate|].
  destruct (pystr_eqb_spec k k1) as [->|Hne].
  - intros [= ->]; now left.
  - intros Hg; right; now apply IH.
Qed.

End MoreDictFacts.

(** ** More about the cart *)

Section MoreCartFacts.
Context {A : Type}.
Implicit Types (c : Cart.t A) (n : pystr) (p : A) (q : Z)
         (ops : list (Cart.op A)).
Local Open Scope Z_scope.

(** X12. Adding a name that the cart does not hold and removing it again
    gives the cart back, entry for entry. *)
Theorem remove_after_add c n p q :
  PyDict.contains n (Cart.items c) = false ->
  Cart.remove_item n (Cart.add_item n p q c) = c.
Proof.
  intros Hc; apply contains_false in Hc.
  destruct c as [d]; unfold Cart.add_item, Cart.remove_item; simpl in *.
  rewrite Hc; simpl. now rewrite pop_set_absent.
Qed.

(** X13. Two [add_item] calls for one name amount to a single call with
    the price of the first and the two quantities added up. *)
Theorem add_item_twice c n p1 q1 p2 q2 :
  Cart.add_item n p2 q2 (Cart.add_item n p1 q1 c)
  = Cart.add_item n p1 (q1 + q2) c.
Proof.
  unfold Cart.add_item.
  destruct (PyDict.get n (Cart.items c)) as [item|] eqn:Hg; simpl;
    rewrite get_set_same, set_set; simpl; rewrite ?Z.add_assoc;
    reflexivity.
Qed.

Lemma step_cart_ok c (o : Cart.op A) : cart_ok c -> cart_ok (Cart.step c o).
Proof.
  intros [Hwf Hname]; split; [now apply step_wf|].
  destruct o as [n p q|n]; simpl.
  - unfold Cart.add_item.
    destruct (PyDict.get n (Cart.items c)) as [old|] eqn:Hg; simpl;
      intros k item Hin; apply in_set_inv in Hin as [Hin|[-> ->]];
      simpl; auto.
    apply get_some_in in Hg. now apply Hname.
  - intros k item Hin. apply in_pop_inv in Hin. auto.
Qed.

Lemma run_cart_ok ops c : cart_ok c -> cart_ok (Cart.run ops c).
Proof.
  revert c; induction ops as [|o ops IH]; intros c Hc; auto.
  rewrite run_cons. apply IH, step_cart_ok, Hc.
Qed.

Lemma new_cart_ok : cart_ok (Cart.new (A := A)).
Proof. split; [constructor|intros k item []]. Qed.

(** X14. In every cart built from [Cart()] by [add_item] and
    [remove_item] calls, no name is filed twice and every entry carries
    the name it is filed under. *)
Theorem cart_invariant ops : cart_ok (Cart.run ops Cart.new).
Proof. apply run_cart_ok, new_cart_ok. Qed.

(** X15. In such a cart, removing a name and adding it again starts the
    entry afresh: it has the price and the quantity of the new call, and
    nothing of the removed entry. *)
Theorem add_after_remove_is_fresh ops n p q :
  PyDict.get n
    (Cart.items
       (Cart.add_item n p q (Cart.remove_item n (Cart.run ops Cart.new))))
  = Some (Cart.mkCartItem n p q).
Proof.
  pose proof (run_cart_ok ops new_cart_ok) as [Hwf _].
  unfold Cart.add_item. simpl.
  rewrite get_pop_same by assumption. simpl. apply get_set_same.
Qed.

Context {num : Number A} {exact : ExactNumber A}.

Lemma sigma_pop n (d : PyDict.t (Cart.CartItem A)) item :
  PyDict.get n d = Some item ->
  sigma (List.map line_total (PyDict.values d))
  = nadd (sigma (List.map line_total (PyDict.values (PyDict.pop n d))))
         (line_total item).
Proof.
  induction d as [|[k v] d IH]; simpl; [discriminate|].
  destruct (PyStr.eqb n k).
  - intros [= ->]. apply nadd_comm.
  - intros Hg. simpl. now rewrite (IH Hg), nadd_assoc.
Qed.

(** X16. In exact arithmetic, adding a name that the cart does not hold
    raises the total by [price * quantity] of the call, and the total of a
    cart is that of the cart without one of its entries plus
    [price * quantity] of that entry. *)
Theorem total_tracks_changes c n p q :
  (PyDict.contains n (Cart.items c) = false ->
   Cart.total (Cart.add_item n p q c) = nadd (Cart.total c) (nscale p q))
  /\ (forall item,
        PyDict.get n (Cart.items c) = Some item ->
        Cart.total c
        = nadd (Cart.total (Cart.remove_item n c)) (line_total item)).
Proof.
  split; [apply total_add_item_new|].
  intros item Hg. rewrite !total_sigma. now apply sigma_pop.
Qed.

End MoreCartFacts.

(** ** Menu *)

Section MenuFacts.
Context {A : Type}.
Implicit Types (menu : RestaurantMenu.t A) (n : pystr) (p : A).
Import RestaurantMenu.

Lemma has_item_add_same n p menu : has_item n (add_menu_item n p menu) = true.
Proof.
  unfold has_item, add_menu_item, PyDict.contains; simpl.
  now rewrite get_set_same.
Qed.

Lemma has_item_add_other n n' p menu :
  n' <> n -> has_item n' (add_menu_item n p menu) = has_item n' menu.
Proof.
  intros Hne; unfold has_item, add_menu_item, PyDict.contains; simpl.
  now rewrite get_set_other.
Qed.

(** X17. After [add_menu_item(n, p)] the menu lists [n] at the price [p],
    whatever price it had before, and lists every other name as before,
    at the price it had. *)
Theorem add_menu_item_overwrites n n' p menu :
  has_item n (add_menu_item n p menu) = true
  /\ PyDict.get n (available_items (add_menu_item n p menu)) = Some p
  /\ (n' <> n ->
      has_item n' (add_menu_item n p menu) = has_item n' menu
      /\ PyDict.get n' (available_items (add_menu_item n p menu))
         = PyDict.get n' (available_items menu)).
Proof.
  split; [apply has_item_add_same|]. split; [apply get_set_same|].
  intros Hne; split; [now apply has_item_add_other|].
  simpl; now apply get_set_other.
Qed.

Lemma has_item_add_mono n n' p menu :
  has_item n' menu = true -> has_item n' (add_menu_item n p menu) = true.
Proof.
  intros Hn. destruct (pystr_eqb_spec n' n) as [->|Hne].
  - apply has_item_add_same.
  - now rewrite has_item_add_other.
Qed.

(** X18. An order that is valid stays valid when the menu gets another
    item. *)
Theorem valid_order_stays_valid (cart : Cart.t A) menu n p :
  OrderPlacement.success
    (OrderPlacement.validate_order (OrderPlacement.mk cart menu)) = true ->
  OrderPlacement.validate_order
    (OrderPlacement.mk cart (add_menu_item n p menu))
  = OrderPlacement.validate_order (OrderPlacement.mk cart menu).
Proof.
  unfold OrderPlacement.validate_order; simpl.
  destruct (Cart.is_empty cart); [discriminate|].
  induction (PyDict.values (Cart.items cart)) as [|item vals IH]; simpl; auto.
  destruct (has_item (Cart.name item) menu) eqn:Hi; simpl; [|discriminate].
  intros Hs. rewrite has_item_add_mono by assumption. simpl. auto.
Qed.

End MenuFacts.

(** ** More about payment processing *)

Section MorePaymentFacts.
Import PaymentMethod PaymentProcessing.
Context {A : Type}.
Implicit Types (log : list (Call A)) (amount : A)
         (method card_number cvv : pystr).

(** X19. Whatever its arguments, [process_payment] returns one of three
    messages, unless the gateway call raises: that call is outside the
    [try], so its exception is the outcome. The gateway receives no call
    or a single call, for the amount given. *)
Theorem process_payment_outcomes (gw : RaisingGateway.t A)
        log amount method card_number cvv :
  let result :=
    RaisingGateway.exec gw
      (process_payment amount method card_number cvv) log in
  (fst result = Return (str "Error: Invalid payment method")
   \/ fst result = Return (str "Payment failed, please try again")
   \/ fst result = Return (str "Payment successful, Order confirmed")
   \/ exists payload e,
        gw log amount payload = Raise e /\ fst result = Raise e)
  /\ (snd result = log
      \/ exists payload, snd result = log ++ [(amount, payload)]).
Proof.
  destruct (supported_dec method) as [Hin|Hout].
  - destruct (validate_credit_card card_number cvv) eqn:Hcard.
    + unfold process_payment.
      rewrite validate_supported, Hcard by assumption.
      cbn [negb RaisingGateway.exec fst snd]. cbv zeta.
      match goal with
      | |- context [gw log amount ?pl] =>
          destruct (gw log amount pl) as [[|]|e] eqn:Hgw
      end; cbn [RaisingGateway.exec fst snd].
      * split; [auto|right; eexists; reflexivity].
      * split; [auto|right; eexists; reflexivity].
      * split; [|right; eexists; reflexivity].
        right; right; right. eexists _, e. split; [exact Hgw|reflexivity].
    + rewrite process_payment_bad_card by assumption. cbn; auto.
  - rewrite process_payment_unsupported by assumption. cbn; auto.
Qed.

(** X20. With the payment method of the source, which accepts every
    payment, [process_payment] confirms the order exactly when the method
    is supported and the card passes the format check. *)
Theorem process_payment_default_gateway log amount method card_number cvv :
  fst (exec PaymentMethod.process_payment
         (process_payment amount method card_number cvv) log)
  = Return (str "Payment successful, Order confirmed")
  <-> In method SUPPORTED_METHODS
      /\ validate_credit_card card_number cvv = true.
Proof.
  destruct (supported_dec method) as [Hin|Hout].
  - destruct (validate_credit_card card_number cvv) eqn:Hcard.
    + unfold process_payment.
      rewrite validate_supported, Hcard by assumption.
      split; [intros _; split; [assumption|reflexivity]|].
      intros _; reflexivity.
    + rewrite process_payment_bad_card by assumption. cbn.
      split; [intros H; vm_compute in H; discriminate H|].
      intros [_ H]; discriminate H.
  - rewrite process_payment_unsupported by assumption. cbn.
    split; [intros H; vm_compute in H; discriminate H|].
    intros [H _]. exact (False_ind _ (Hout H)).
Qed.

End MorePaymentFacts.

(** X21. On input made of ASCII characters, [validate_credit_card]
    accepts exactly a card number of 15 or 16 characters ['0'] .. ['9']
    with a cvv of 3 such characters. *)
Theorem validate_credit_card_on_ascii (card_number cvv : pystr) :
  forallb PyStr.is_ascii card_number = true ->
  forallb PyStr.is_ascii cvv = true ->
  PaymentProcessing.validate_credit_card card_number cvv = true
  <-> Forall (fun ch => PyStr.is_decimal_digit ch = true) card_number
      /\ (List.length card_number = 15%nat
          \/ List.length card_number = 16%nat)
      /\ Forall (fun ch => PyStr.is_decimal_digit ch = true) cvv
      /\ List.length cvv = 3%nat.
Proof. apply validate_credit_card_ascii. Qed.

(** *** Instances on concrete data *)

Section MoreExamples.
Local Open Scope Z_scope.

Lemma register_outcome_witness :
  UserRegistry.success
    (fst (UserRegistry.register (str "bob@example.com") (str "secret1")
            (str "secret2") example_registry)) = false
  /\ UserRegistry.success
       (fst (UserRegistry.register (str "bob@example.com") (str "secret1")
               (str "secret1") example_registry)) = true
  /\ snd (UserRegistry.register (str "bob@example.com") (str "secret1")
            (str "secret2") example_registry) = example_registry
  /\ UserRegistry.is_registered (str "bob@example.com")
       (snd (UserRegistry.register (str "bob@example.com") (str "secret1")
               (str "secret1") example_registry)) = true.
Proof.
  split; [reflexivity|]. split; [reflexivity|]. split.
  - exact (proj1 (proj2 (register_outcome (str "bob@example.com")
                           (str "secret1") (str "secret2")
                           example_registry)) eq_refl).
  - exact (proj1 (proj2 (proj2 (register_outcome (str "bob@example.com")
                                  (str "secret1") (str "secret1")
                                  example_registry)) eq_refl)).
Defined.

Lemma registered_user_is_kept_witness :
  PyDict.get (str "alice@example.com") (UserRegistry._users example_registry)
  = Some (UserRegistry.mkUser (str "alice@example.com") (str "secret1"))
  /\ PyDict.get (str "alice@example.com")
       (UserRegistry._users (UserRegistry.run [alice_again] example_registry))
     = Some (UserRegistry.mkUser (str "alice@example.com") (str "secret1")).
Proof.
  split; [reflexivity|].
  exact (@registered_user_is_kept [alice_again] example_registry
           (str "alice@example.com") _ eq_refl).
Defined.

Lemma register_twice_fails_witness :
  UserRegistry.success
    (fst (UserRegistry.register (str "alice@example.com") (str "secret1")
            (str "secret1") UserRegistry.new)) = true
  /\ UserRegistry.success
       (fst (UserRegistry.register (str "alice@example.com")
               (str "another2") (str "another2")
               (UserRegistry.run []
                  (snd (UserRegistry.register (str "alice@example.com")
                          (str "secret1") (str "secret1")
                          UserRegistry.new))))) = false.
Proof.
  split; [reflexivity|].
  exact (@register_twice_fails (str "alice@example.com") (str "secret1")
           (str "secret1") UserRegistry.new [] (str "another2")
           (str "another2") eq_refl).
Defined.

Lemma search_unfiltered_witness :
  PyStrOps.truthy (Some (str "")) = false
  /\ PyStrOps.truthy None = false
  /\ RestaurantBrowsing.search (Some (str "")) None None
       (RestaurantBrowsing.mk example_db)
     = RestaurantDatabase.all example_db.
Proof.
  split; [reflexivity|]. split; [reflexivity|].
  exact (@search_unfiltered Z _ (Some (str "")) None
           (RestaurantBrowsing.mk example_db) eq_refl eq_refl).
Defined.

Lemma search_after_add_witness :
  restaurant_matches (Some (str "Indian")) None (Some 30) curry_house
  /\ ~ restaurant_matches (Some (str "Indian")) None (Some 40) curry_house
  /\ RestaurantBrowsing.search (Some (str "Indian")) None (Some 30)
       (RestaurantBrowsing.mk
          (RestaurantDatabase.add_restaurant curry_house example_db))
     = RestaurantBrowsing.search (Some (str "Indian")) None (Some 30)
         (RestaurantBrowsing.mk example_db) ++ [curry_house]
  /\ RestaurantBrowsing.search (Some (str "Indian")) None (Some 40)
       (RestaurantBrowsing.mk
          (RestaurantDatabase.add_restaurant curry_house example_db))
     = RestaurantBrowsing.search (Some (str "Indian")) None (Some 40)
         (RestaurantBrowsing.mk example_db).
Proof.
  assert (Hyes : restaurant_matches (Some (str "Indian")) None (Some 30)
                   curry_house).
  { repeat split.
    - now intros c [= <-] _.
    - discriminate.
    - now intros m [= <-]. }
  assert (Hno : ~ restaurant_matches (Some (str "Indian")) None (Some 40)
                  curry_house).
  { intros (_ & _ & Hm). specialize (Hm 40 eq_refl). discriminate Hm. }
  split; [exact Hyes|]. split; [exact Hno|]. split.
  - exact (proj1 (@search_after_add Z _ (Some (str "Indian")) None (Some 30)
                    example_db curry_house) Hyes).
  - exact (proj2 (@search_after_add Z _ (Some (str "Indian")) None (Some 40)
                    example_db curry_house) Hno).
Defined.

Lemma add_order_appends_witness :
  order_matches (I := pystr) (A := Z) (Some (str "Pending")) None
    (OrderHistory.mkOrder (str "Order003") (str "Curry") 15
       (str "Pending") (str "2023-09-17"))
  /\ OrderHistory.filter_orders (Some (str "Pending")) None
       (OrderHistory.add_order (str "Order003") (str "Curry") 15
          (str "Pending") (str "2023-09-17") example_history)
     = OrderHistory.filter_orders (Some (str "Pending")) None
         example_history
       ++ [OrderHistory.mkOrder (str "Order003") (str "Curry") 15
             (str "Pending") (str "2023-09-17")].
Proof.
  assert (Hyes : order_matches (I := pystr) (A := Z)
                   (Some (str "Pending")) None
                   (OrderHistory.mkOrder (str "Order003") (str "Curry") 15
                      (str "Pending") (str "2023-09-17"))).
  { split; [now intros s [= <-]|discriminate]. }
  split; [exact Hyes|].
  exact (proj1 (proj2 (@add_order_appends pystr Z (str "Order003")
                         (str "Curry") 15 (str "Pending")
                         (str "2023-09-17") (Some (str "Pending")) None
                         example_history)) Hyes).
Defined.

Lemma remove_after_add_witness :
  PyDict.contains (str "Salad") (Cart.items example_cart) = false
  /\ Cart.remove_item (str "Salad")
       (Cart.add_item (str "Salad") 5 1 example_cart) = example_cart.
Proof.
  split; [reflexivity|].
  exact (@remove_after_add Z example_cart (str "Salad") 5 1 eq_refl).
Defined.

Lemma total_tracks_changes_witness :
  ExactNumber Z
  /\ PyDict.contains (str "Salad") (Cart.items example_cart) = false
  /\ PyDict.get (str "Burger") (Cart.items example_cart)
     = Some (Cart.mkCartItem (str "Burger") 8 1)
  /\ Cart.total (Cart.add_item (str "Salad") 5 2 example_cart)
     = Cart.total example_cart + 5 * 2
  /\ Cart.total example_cart
     = Cart.total (Cart.remove_item (str "Burger") example_cart) + 8 * 1.
Proof.
  split; [exact Z_ExactNumber|]. split; [reflexivity|].
  split; [reflexivity|]. split.
  - exact (proj1 (@total_tracks_changes Z _ Z_ExactNumber example_cart
                    (str "Salad") 5 2) eq_refl).
  - exact (proj2 (@total_tracks_changes Z _ Z_ExactNumber example_cart
                    (str "Burger") 0 0) _ eq_refl).
Defined.

Lemma add_menu_item_overwrites_witness :
  str "Burger" <> str "Pizza"
  /\ PyDict.get (str "Pizza")
       (RestaurantMenu.available_items
          (RestaurantMenu.add_menu_item (str "Pizza") 12 example_menu))
     = Some 12
  /\ PyDict.get (str "Burger")
       (RestaurantMenu.available_items
          (RestaurantMenu.add_menu_item (str "Pizza") 12 example_menu))
     = PyDict.get (str "Burger") (RestaurantMenu.available_items example_menu).
Proof.
  assert (Hne : str "Burger" <> str "Pizza") by (vm_compute; discriminate).
  split; [exact Hne|].
  pose proof (@add_menu_item_overwrites Z (str "Pizza") (str "Burger") 12
                example_menu) as (_ & Hp & Hother).
  split; [exact Hp|]. exact (proj2 (Hother Hne)).
Defined.

Lemma valid_order_stays_valid_witness :
  OrderPlacement.success
    (OrderPlacement.validate_order
       (OrderPlacement.mk example_cart example_menu)) = true
  /\ OrderPlacement.validate_order
       (OrderPlacement.mk example_cart
          (RestaurantMenu.add_menu_item (str "Salad") 5 example_menu))
     = OrderPlacement.validate_order
         (OrderPlacement.mk example_cart example_menu).
Proof.
  split; [reflexivity|].
  exact (@valid_order_stays_valid Z example_cart example_menu (str "Salad")
           5 eq_refl).
Defined.

Lemma validate_credit_card_on_ascii_witness :
  forallb PyStr.is_ascii (str "4242-4242-4242-4242") = true
  /\ forallb PyStr.is_ascii (str "123") = true
  /\ (PaymentProcessing.validate_credit_card (str "4242-4242-4242-4242")
        (str "123") = true
      <-> Forall (fun ch => PyStr.is_decimal_digit ch = true)
            (str "4242-4242-4242-4242")
          /\ (List.length (str "4242-4242-4242-4242") = 15%nat
              \/ List.length (str "4242-4242-4242-4242") = 16%nat)
          /\ Forall (fun ch => PyStr.is_decimal_digit ch = true) (str "123")
          /\ List.length (str "123") = 3%nat).
Proof.
  split; [reflexivity|]. split; [reflexivity|].
  exact (@validate_credit_card_on_ascii (str "4242-4242-4242-4242")
           (str "123") eq_refl eq_refl).
Defined.

End MoreExamples.
